(** * pywikitools: the 4training.net client library (fortraininglib.py)

    A shallow embedding of [src/pywikitools/fortraininglib.py].

    - Python [str] values are [string]s (sequences of 8-bit characters); the
      case conversion and the regular-expression character classes are the
      ASCII ones.
    - A parsed JSON document is a [json] value; a JSON object is the
      association list of its members in document order (the order a Python
      [dict] iterates in), without repeated keys.  JSON numbers are integers.
    - A Python exception is the [Raise] branch of [result].
    - [requests.get] asks a [server] for the next response; the requests
      issued so far and the records handed to the module's logger are the
      state that every remote operation threads through.
    - The [while] loop of [get_msggroupstats] runs on fuel; three units are
      shown to be enough.

    The operations embedded are the ones the properties below are about:
    [get_language_direction], [get_file_url], [get_pdf_name],
    [get_msggroupstats], [list_page_translations], [list_page_templates],
    [title_to_message], [expand_template] and [get_cc0_notice]; then
    [get_language_name], [get_translation_units] and the two static lists. *)

From Stdlib Require Import String Ascii List ZArith Lia Bool.
Import ListNotations.
Open Scope string_scope.
Open Scope Z_scope.

(** ** Python string primitives *)

Module PyStr.

(** [sub in s] for two strings. *)
Fixpoint contains (sub s : string) : bool :=
  match s with
  | EmptyString => String.prefix sub EmptyString
  | String _ s' => String.prefix sub s || contains sub s'
  end.

(** The scan of [str.replace old new] for a non-empty [old]: [skip] counts the
    characters of a match of [old] that remain to be dropped. *)
Fixpoint replace_scan (old new : string) (skip : nat) (s : string) : string :=
  match s with
  | EmptyString => EmptyString
  | String c s' =>
      match skip with
      | S k => replace_scan old new k s'
      | O =>
          if String.prefix old s
          then new ++ replace_scan old new (Nat.pred (String.length old)) s'
          else String c (replace_scan old new O s')
      end
  end.

(** With an empty [old], Python puts [new] before every character and at the
    end. *)
Fixpoint replace_empty (new s : string) : string :=
  match s with
  | EmptyString => new
  | String c s' => new ++ String c (replace_empty new s')
  end.

(** [s.replace(old, new)]: every non-overlapping occurrence, left to right. *)
Definition replace (old new s : string) : string :=
  match old with
  | EmptyString => replace_empty new s
  | _ => replace_scan old new O s
  end.

Definition is_upper (c : ascii) : bool :=
  ((65 <=? nat_of_ascii c) && (nat_of_ascii c <=? 90))%nat.

Definition lower_char (c : ascii) : ascii :=
  if is_upper c then ascii_of_nat (nat_of_ascii c + 32) else c.

(** [s.lower()]. *)
Fixpoint lower (s : string) : string :=
  match s with
  | EmptyString => EmptyString
  | String c s' => String (lower_char c) (lower s')
  end.

(** [s.find(c)] for a one-character [c]: the first index, or -1. *)
Fixpoint find_char (c : ascii) (s : string) : Z :=
  match s with
  | EmptyString => -1
  | String d s' =>
      if Ascii.eqb d c then 0
      else let i := find_char c s' in if i =? -1 then -1 else i + 1
  end.

Fixpoint take (n : nat) (s : string) : string :=
  match n, s with
  | S k, String c s' => String c (take k s')
  | _, _ => EmptyString
  end.

(** [s[0:stop]] for a non-negative [stop]. *)
Definition slice_to (stop : Z) (s : string) : string := take (Z.to_nat stop) s.

(** The characters of [s] other than [c], in order. *)
Fixpoint without (c : ascii) (s : string) : string :=
  match s with
  | EmptyString => EmptyString
  | String d s' => if Ascii.eqb d c then without c s' else String d (without c s')
  end.

(** [c] occurs in [s]. *)
Fixpoint occurs (c : ascii) (s : string) : Prop :=
  match s with
  | EmptyString => False
  | String d s' => d = c \/ occurs c s'
  end.

End PyStr.

(** ** Static tables and pure helpers *)

(** [get_language_direction] *)
Definition RTL : list string := ["ar"; "fa"; "ckb"; "ar-urdun"; "ps"; "ur"].

Fixpoint str_in_list (s : string) (l : list string) : bool :=
  match l with
  | [] => false
  | x :: l' => String.eqb s x || str_in_list s l'
  end.

Definition get_language_direction (languagecode : string) : string :=
  if str_in_list languagecode RTL then "rtl" else "ltr".

(** [title_to_message] *)
Definition title_to_message (title : string) : string :=
  let ret := PyStr.replace "-" "" title in
  let ret := PyStr.replace "_(" "-" ret in
  let ret := PyStr.replace ")" "" ret in
  let ret := PyStr.replace "'" "" ret in
  let ret := PyStr.replace "_" "" ret in
  let ret := PyStr.replace ":" "" ret in
  let ret := PyStr.lower ret in
  "sidebar-" ++ ret.

(** The transform as the specification words its second step: the pair
    space, opening parenthesis becomes a hyphen. *)
Definition title_to_message_as_worded (title : string) : string :=
  let ret := PyStr.replace "-" "" title in
  let ret := PyStr.replace " (" "-" ret in
  let ret := PyStr.replace ")" "" ret in
  let ret := PyStr.replace "'" "" ret in
  let ret := PyStr.replace "_" "" ret in
  let ret := PyStr.replace ":" "" ret in
  let ret := PyStr.lower ret in
  "sidebar-" ++ ret.

(** ** JSON documents and Python's dynamic operations on them *)

#[local] Set Warnings "-register-all".

Inductive json : Type :=
| JNull
| JBool (b : bool)
| JInt (z : Z)
| JStr (s : string)
| JList (l : list json)
| JDict (d : list (string * json)).

Inductive exn : Type :=
| KeyError | TypeError | IndexError | ValueError | AttributeError
| UnboundLocalError | StopIteration.

(** The outcome of running a piece of the module: a value, a Python exception,
    or a loop model that ran out of fuel. *)
Inductive result (A : Type) : Type :=
| Ok (a : A)
| Raise (e : exn)
| OutOfFuel.
Arguments Ok {A} a.
Arguments Raise {A} e.
Arguments OutOfFuel {A}.

Module Py.

Fixpoint assoc (k : string) (d : list (string * json)) : option json :=
  match d with
  | [] => None
  | (k', v) :: d' => if String.eqb k' k then Some v else assoc k d'
  end.

Definition is_str (k : string) (v : json) : bool :=
  match v with JStr s => String.eqb s k | _ => false end.

(** [k in x] for a string [k]. *)
Definition contains (k : string) (x : json) : result bool :=
  match x with
  | JDict d => Ok (match assoc k d with Some _ => true | None => false end)
  | JList l => Ok (existsb (is_str k) l)
  | JStr s => Ok (PyStr.contains k s)
  | JNull | JBool _ | JInt _ => Raise TypeError
  end.

Fixpoint chars (s : string) : list json :=
  match s with
  | EmptyString => []
  | String c s' => JStr (String c EmptyString) :: chars s'
  end.

(** The items that [iter(x)] yields: keys of an object, elements of a list,
    characters of a string. *)
Definition iter (x : json) : result (list json) :=
  match x with
  | JDict d => Ok (map (fun kv => JStr (fst kv)) d)
  | JList l => Ok l
  | JStr s => Ok (chars s)
  | JNull | JBool _ | JInt _ => Raise TypeError
  end.

(** [len(x)] *)
Definition len (x : json) : result Z :=
  match x with
  | JDict d => Ok (Z.of_nat (List.length d))
  | JList l => Ok (Z.of_nat (List.length l))
  | JStr s => Ok (Z.of_nat (String.length s))
  | JNull | JBool _ | JInt _ => Raise TypeError
  end.

(** [seq[i]] on a sequence of [n] items, negative indices counting from the
    end. *)
Definition index {A : Type} (l : list A) (i : Z) : result A :=
  let n := Z.of_nat (List.length l) in
  let j := if i <? 0 then i + n else i in
  if (j <? 0) || (n <=? j) then Raise IndexError
  else match nth_error l (Z.to_nat j) with
       | Some a => Ok a
       | None => Raise IndexError
       end.

Definition int_of_bool (b : bool) : Z := if b then 1 else 0.

(** [x[k]] *)
Definition getitem (x k : json) : result json :=
  match x with
  | JDict d =>
      match k with
      | JStr s => match assoc s d with Some v => Ok v | None => Raise KeyError end
      | JNull | JBool _ | JInt _ => Raise KeyError
      | JList _ | JDict _ => Raise TypeError
      end
  | JList l =>
      match k with
      | JInt i => index l i
      | JBool b => index l (int_of_bool b)
      | _ => Raise TypeError
      end
  | JStr s =>
      match k with
      | JInt i => index (chars s) i
      | JBool b => index (chars s) (int_of_bool b)
      | _ => Raise TypeError
      end
  | JNull | JBool _ | JInt _ => Raise TypeError
  end.

Definition is_space (c : ascii) : bool :=
  let n := nat_of_ascii c in
  ((9 <=? n) && (n <=? 13) || (28 <=? n) && (n <=? 32))%nat.

Definition is_digit (c : ascii) : bool :=
  ((48 <=? nat_of_ascii c) && (nat_of_ascii c <=? 57))%nat.

Fixpoint lstrip (s : string) : string :=
  match s with
  | String c s' => if is_space c then lstrip s' else s
  | EmptyString => EmptyString
  end.

Fixpoint rstrip (s : string) : string :=
  match s with
  | EmptyString => EmptyString
  | String c s' =>
      match rstrip s' with
      | EmptyString => if is_space c then EmptyString else String c EmptyString
      | r => String c r
      end
  end.

(** Decimal digits with single underscores between them. *)
Fixpoint digits (after_digit : bool) (acc : Z) (s : string) : option Z :=
  match s with
  | EmptyString => if after_digit then Some acc else None
  | String c s' =>
      if is_digit c
      then digits true (10 * acc + (Z.of_nat (nat_of_ascii c) - 48)) s'
      else if Ascii.eqb c "_" && after_digit then digits false acc s'
      else None
  end.

(** [int(s)] for a string: surrounding white space, a sign, decimal digits. *)
Definition int_of_string (s : string) : result Z :=
  let body := rstrip (lstrip s) in
  let parsed :=
    match body with
    | String "-" r => option_map Z.opp (digits false 0 r)
    | String "+" r => digits false 0 r
    | _ => digits false 0 body
    end in
  match parsed with Some z => Ok z | None => Raise ValueError end.

(** [int(x)] *)
Definition int (x : json) : result Z :=
  match x with
  | JInt z => Ok z
  | JBool b => Ok (int_of_bool b)
  | JStr s => int_of_string s
  | JNull | JList _ | JDict _ => Raise TypeError
  end.

(** A value used as a number in a comparison or a subtraction. *)
Definition number (x : json) : result Z :=
  match x with
  | JInt z => Ok z
  | JBool b => Ok (int_of_bool b)
  | _ => Raise TypeError
  end.

(** [x.find('/')], defined on strings only. *)
Definition find_slash (x : json) : result Z :=
  match x with
  | JStr s => Ok (PyStr.find_char "/" s)
  | _ => Raise AttributeError
  end.

(** [x[0:stop]] *)
Definition slice_to (x : json) (stop : Z) : result json :=
  match x with
  | JStr s =>
      Ok (JStr (if stop <? 0
                then PyStr.take (String.length s - Z.to_nat (- stop)) s
                else PyStr.slice_to stop s))
  | JList l =>
      Ok (JList (if stop <? 0
                 then firstn (List.length l - Z.to_nat (- stop)) l
                 else firstn (Z.to_nat stop) l))
  | JDict _ | JNull | JBool _ | JInt _ => Raise TypeError
  end.

End Py.

(** ** Regular expressions of [get_pdf_name] *)

Module Re.

Definition is_word (c : ascii) : bool :=
  let n := nat_of_ascii c in
  ((48 <=? n) && (n <=? 57) || (65 <=? n) && (n <=? 90)
   || (97 <=? n) && (n <=? 122) || (n =? 95))%nat.

Fixpoint drop (n : nat) (s : string) : string :=
  match n, s with
  | S k, String _ s' => drop k s'
  | _, _ => s
  end.

(** The longest prefix whose characters all satisfy [p]. *)
Fixpoint span (p : ascii -> bool) (s : string) : string :=
  match s with
  | String c s' => if p c then String c (span p s') else EmptyString
  | EmptyString => EmptyString
  end.

(** [re.search]: the match at the leftmost position that has one. *)
Fixpoint search (match_at : string -> option string) (s : string) : option string :=
  match match_at s with
  | Some m => Some m
  | None =>
      match s with
      | EmptyString => None
      | String _ s' => search match_at s'
      end
  end.

(** [{{PdfDownload[^}]*}] anchored at the start of [s]. *)
Definition pdfdownload_at (s : string) : option string :=
  let opening := "{{PdfDownload" in
  if String.prefix opening s then
    let rest := drop (String.length opening) s in
    let args := span (fun c => negb (Ascii.eqb c "}")) rest in
    if String.prefix "}" (drop (String.length args) rest)
    then Some (opening ++ args ++ "}")
    else None
  else None.

(** [\w+\.pdf] anchored at the start of [s]. *)
Definition pdffile_at (s : string) : option string :=
  let name := span is_word s in
  match name with
  | EmptyString => None
  | _ => if String.prefix ".pdf" (drop (String.length name) s)
         then Some (name ++ ".pdf")
         else None
  end.

(** [\.pdf$] anchored at the start of [s]: [$] is the end of the string or
    the place just before a final newline. *)
Definition pdf_end_at (s : string) : option string :=
  if String.eqb s ".pdf" || String.eqb s (".pdf" ++ String (ascii_of_nat 10) EmptyString)
  then Some ".pdf"
  else None.

End Re.

(** ** The remote API, the logger and the state they share *)

Record response : Type := { status_code : Z; body : json }.

(** The query parameters of one request. *)
Definition request : Type := list (string * json).

Inductive level : Type := DEBUG | INFO | WARNING.

(** A log message is kept as the pieces it is put together from: literal text
    and values formatted with [str()]. *)
Inductive piece : Type :=
| Lit (s : string)
| Str (v : json).

Record log_record : Type := { lvl : level; text : list piece }.

Record state : Type := { sent : list request; log : list log_record }.

Definition initial : state := {| sent := []; log := [] |}.

Definition M (A : Type) : Type := state -> result A * state.

Definition ret {A : Type} (a : A) : M A := fun st => (Ok a, st).

Definition bind {A B : Type} (c : M A) (k : A -> M B) : M B :=
  fun st =>
    match c st with
    | (Ok a, st') => k a st'
    | (Raise e, st') => (Raise e, st')
    | (OutOfFuel, st') => (OutOfFuel, st')
    end.

Definition lift {A : Type} (r : result A) : M A := fun st => (r, st).

Notation "x <- c ;; k" := (bind c (fun x => k))
  (at level 61, c at next level, right associativity).
Notation "c ;;; k" := (bind c (fun _ => k))
  (at level 61, right associativity).

Definition logger (l : level) (t : list piece) : M unit :=
  fun st => (Ok tt, {| sent := sent st; log := log st ++ [{| lvl := l; text := t |}] |}).

(** [for x in items: body], with the loop's variables in [acc]. *)
Fixpoint for_each {A B : Type} (items : list A) (body : B -> A -> M B) (acc : B) : M B :=
  match items with
  | [] => ret acc
  | x :: items' => acc' <- body acc x ;; for_each items' body acc'
  end.

Definition APIURL : string := "https://www.4training.net/mediawiki/api.php".

(** *** The query parameters of each operation *)

Definition file_url_request (filename : string) : request :=
  [("action", JStr "query"); ("format", JStr "json"); ("prop", JStr "imageinfo");
   ("titles", JStr ("File:" ++ filename)); ("iiprop", JStr "url")].

Definition page_source_request (worksheet : string) : request :=
  [("action", JStr "query"); ("prop", JStr "revisions"); ("rvlimit", JInt 1);
   ("rvprop", JStr "content"); ("format", JStr "json"); ("titles", JStr worksheet)].

Definition messagecollection_request (worksheet languagecode : string) : request :=
  [("action", JStr "query"); ("format", JStr "json"); ("list", JStr "messagecollection");
   ("mcgroup", JStr ("page-" ++ worksheet)); ("mclanguage", JStr languagecode)].

Definition msggroupstats_request (page : string) : request :=
  [("action", JStr "query"); ("meta", JStr "messagegroupstats");
   ("format", JStr "json"); ("mgsgroup", JStr ("page-" ++ page))].

Definition templates_request (page : string) : request :=
  [("action", JStr "query"); ("format", JStr "json"); ("titles", JStr page);
   ("prop", JStr "templates")].

Definition expandtemplates_request (raw_template : string) : request :=
  [("action", JStr "expandtemplates"); ("text", JStr raw_template);
   ("prop", JStr "wikitext"); ("format", JStr "json")].

(** *** The log records the module writes *)

Definition retrieving (page : string) (counter status : Z) : log_record :=
  {| lvl := INFO;
     text := [Lit "Retrieving translation information of "; Lit page; Lit ", try #";
              Str (JInt counter); Lit ". Response: "; Str (JInt status)] |}.

Definition still_no_result (page : string) : log_record :=
  {| lvl := WARNING;
     text := [Lit "Error while trying to get all translations of "; Lit page;
              Lit " - tried 3 times, still no result"] |}.

Definition ignoring (page : string) (language translated fuzzy total : json) : log_record :=
  {| lvl := INFO;
     text := [Lit "Ignoring translation "; Lit page; Lit "/"; Str language; Lit " (";
              Str translated; Lit "+"; Str fuzzy; Lit "/"; Str total;
              Lit " translation units translated)"] |}.

Definition incomplete_translation (page language : string) (translated fuzzy total : json)
  : log_record :=
  {| lvl := WARNING;
     text := [Lit "Warning: incomplete translation "; Str translated; Lit "+"; Str fuzzy;
              Lit "/"; Str total; Lit " ("; Lit page; Lit "/"; Lit language; Lit ")"] |}.

Definition cc0_fuzzy : log_record :=
  {| lvl := WARNING;
     text := [Lit ("Warning: Template:CC0Notice doesn't seem to be correctly translated into this language."
                   ++ "Please check https://www.4training.net/Template:CC0Notice")] |}.

Definition cc0_untranslated : log_record :=
  {| lvl := WARNING;
     text := [Lit ("Warning: Template:CC0Notice doesn't seem to be translated into this language."
                   ++ "Please translate https://www.4trai  ning.net/Template:CC0Notice")] |}.

Definition cc0_placeholder : string :=
  "TODO translate https://www.4training.net/Template:CC0Notice".

Section Client.

(** The wiki: what the [n]-th request of a run is answered with. *)
Variable server : nat -> request -> response.

(** [requests.get(APIURL, params=params)] *)
Definition requests_get (params : request) : M response :=
  fun st =>
    (Ok (server (List.length (sent st)) params),
     {| sent := sent st ++ [params]; log := log st |}).

(** [x[k]] with a literal key. *)
Definition item (x : json) (k : string) : M json := lift (Py.getitem x (JStr k)).

(** [k in x] with a literal [k]. *)
Definition has (k : string) (x : json) : M bool := lift (Py.contains k x).

Definition emit (r : log_record) : M unit := logger (lvl r) (text r).

(** *** [get_file_url] *)

Definition get_file_url (filename : string) : M json :=
  let parameters := file_url_request filename in
  response_url <- requests_get parameters ;;
  logger INFO [Lit "Retrieving URL of file "; Lit filename; Lit "... ";
               Str (JInt (status_code response_url))] ;;;
  let url_json := body response_url in
  logger DEBUG [Str url_json] ;;;
  query <- item url_json "query" ;;
  pages <- item query "pages" ;;
  ids <- lift (Py.iter pages) ;;
  if Z.of_nat (List.length ids) =? 1 then
    page_number <- lift (Py.index ids 0) ;;
    n <- lift (Py.int page_number) ;;
    if n =? -1 then
      logger INFO [Lit "fortraininglib:get_file_url: file "; Lit filename;
                   Lit " doesn't seem to exist."] ;;;
      ret JNull
    else
      page <- lift (Py.getitem pages page_number) ;;
      imageinfo <- item page "imageinfo" ;;
      first <- lift (Py.getitem imageinfo (JInt 0)) ;;
      item first "url"
  else
    logger WARNING [Lit "fortraininglib:get_file_url: Couldn't get URL of file ";
                    Lit filename; Lit ": multiple pages detected"] ;;;
    ret JNull.

(** *** [get_pdf_name] *)

(** [re.search(pattern, x)] wants a string. *)
Definition re_search (match_at : string -> option string) (x : json) : M (option string) :=
  match x with
  | JStr s => ret (Re.search match_at s)
  | _ => lift (Raise TypeError)
  end.

(** The body of [for t in translations]; [pdf] is unbound until a unit whose
    definition ends in [.pdf] has been seen. *)
Definition pdf_unit (pdf : option json) (t : json) : M (option json) :=
  definition <- item t "definition" ;;
  found <- re_search Re.pdf_end_at definition ;;
  match found with
  | Some _ => translation <- item t "translation" ;; ret (Some translation)
  | None => ret pdf
  end.

Definition get_pdf_name (worksheet languagecode : string) : M json :=
  if String.eqb languagecode "en" then
    resp <- requests_get (page_source_request worksheet) ;;
    let doc := body resp in
    has_query <- has "query" doc ;;
    if negb has_query then ret JNull else
    query <- item doc "query" ;;
    has_pages <- has "pages" query ;;
    if negb has_pages then ret JNull else
    pages <- item query "pages" ;;
    ids <- lift (Py.iter pages) ;;
    pageid <- lift (match ids with [] => Raise StopIteration | i :: _ => Ok i end) ;;
    page <- lift (Py.getitem pages pageid) ;;
    has_revisions <- has "revisions" page ;;
    if negb has_revisions then ret JNull else
    revisions <- item page "revisions" ;;
    n <- lift (Py.len revisions) ;;
    if negb (n >? 0) then ret JNull else
    revision <- lift (Py.getitem revisions (JInt 0)) ;;
    has_star <- has "*" revision ;;
    if negb has_star then ret JNull else
    content <- item revision "*" ;;
    pdfdownload <- re_search Re.pdfdownload_at content ;;
    match pdfdownload with
    | None => ret JNull
    | Some group =>
        match Re.search Re.pdffile_at group with
        | Some pdffile => ret (JStr pdffile)
        | None => ret JNull
        end
    end
  else
    resp <- requests_get (messagecollection_request worksheet languagecode) ;;
    query <- item (body resp) "query" ;;
    translations <- item query "messagecollection" ;;
    units <- lift (Py.iter translations) ;;
    pdf <- for_each units pdf_unit None ;;
    match pdf with
    | Some name => ret name
    | None => lift (Raise UnboundLocalError)
    end.

(** *** [get_msggroupstats] *)

(** The [while counter < 4] loop; it hands back [counter] and the variable
    [json] ([last] here), unbound as long as no response has come in. *)
Fixpoint poll (fuel : nat) (page : string) (counter : Z) (last : option json)
  : M (Z * option json) :=
  if counter <? 4 then
    match fuel with
    | O => lift OutOfFuel
    | S fuel' =>
        resp <- requests_get (msggroupstats_request page) ;;
        emit (retrieving page counter (status_code resp)) ;;;
        let doc := body resp in
        more <- has "continue" doc ;;
        if negb more then ret (counter, Some doc)
        else poll fuel' page (counter + 1) (Some doc)
    end
  else ret (counter, last).

(** What follows the loop: the warning, then the presence checks. *)
Definition after_poll (page : string) (counter : Z) (doc : json) : M json :=
  more <- has "continue" doc ;;
  (if more || (counter =? 4) then emit (still_no_result page) else ret tt) ;;;
  has_query <- has "query" doc ;;
  if negb has_query then ret (JStr "") else
  query <- item doc "query" ;;
  has_stats <- has "messagegroupstats" query ;;
  if negb has_stats then ret (JStr "") else ret doc.

Definition get_msggroupstats (fuel : nat) (page : string) : M json :=
  polled <- poll fuel page 1 None ;;
  doc <- lift (match snd polled with Some j => Ok j | None => Raise UnboundLocalError end) ;;
  after_poll page (fst polled) doc.

(** *** [list_page_translations] *)

(** The body of [for line in json['query']['messagegroupstats']]. *)
Definition translation_line (page : string) (available : list json) (line : json)
  : M (list json) :=
  translated <- item line "translated" ;;
  t <- lift (Py.number translated) ;;
  if t >? 0 then
    total <- item line "total" ;;
    fuzzy <- item line "fuzzy" ;;
    n <- lift (Py.number total) ;;
    f <- lift (Py.number fuzzy) ;;
    if n - f - t >? 4 then
      language <- item line "language" ;;
      emit (ignoring page language translated fuzzy total) ;;;
      ret available
    else
      language <- item line "language" ;;
      let available := (available ++ [language])%list in
      if t + f <? n then
        match language with
        | JStr l =>
            emit (incomplete_translation page l translated fuzzy total) ;;;
            ret available
        | _ => lift (Raise TypeError)
        end
      else ret available
  else ret available.

Definition list_page_translations (fuel : nat) (page : string) : M (list json) :=
  doc <- get_msggroupstats fuel page ;;
  match doc with
  | JStr EmptyString => ret []
  | _ =>
      query <- item doc "query" ;;
      stats <- item query "messagegroupstats" ;;
      lines <- lift (Py.iter stats) ;;
      for_each lines (translation_line page) []
  end.

(** *** [list_page_templates] *)

(** The body of [for line in json['query']['pages'][pageid]['templates']]. *)
Definition template_line (result : list json) (line : json) : M (list json) :=
  has_title <- has "title" line ;;
  if has_title then
    title <- item line "title" ;;
    language_code <- lift (Py.find_slash title) ;;
    if language_code =? -1 then ret (result ++ [title])%list
    else
      stripped <- lift (Py.slice_to title language_code) ;;
      ret (result ++ [stripped])%list
  else ret result.

Definition list_page_templates (page : string) : M (list json) :=
  resp <- requests_get (templates_request page) ;;
  let doc := body resp in
  has_query <- has "query" doc ;;
  if negb has_query then ret [] else
  query <- item doc "query" ;;
  has_pages <- has "pages" query ;;
  if negb has_pages then ret [] else
  pages <- item query "pages" ;;
  ids <- lift (Py.iter pages) ;;
  if Z.of_nat (List.length ids) =? 1 then
    pageid <- lift (Py.index ids 0) ;;
    page_entry <- lift (Py.getitem pages pageid) ;;
    has_templates <- has "templates" page_entry ;;
    if negb has_templates then ret [] else
    templates <- item page_entry "templates" ;;
    lines <- lift (Py.iter templates) ;;
    for_each lines template_line []
  else
    logger WARNING [Lit "fortraininglib:list_page_templates: Error, multiple pages detected"] ;;;
    ret [].

(** *** [expand_template] and [get_cc0_notice] *)

Definition expand_template (raw_template : string) : M json :=
  resp <- requests_get (expandtemplates_request raw_template) ;;
  let doc := body resp in
  let failed :=
    logger WARNING [Lit "Warning: couldn't expand template "; Lit raw_template] ;;;
    ret (JStr "") in
  has_expansion <- has "expandtemplates" doc ;;
  if has_expansion then
    expansion <- item doc "expandtemplates" ;;
    has_wikitext <- has "wikitext" expansion ;;
    if has_wikitext then item expansion "wikitext" else failed
  else failed.

Definition get_cc0_notice (version languagecode : string) : M json :=
  expanded <- expand_template ("{{CC0Notice/" ++ languagecode ++ "|" ++ version ++ "}}") ;;
  fuzzy <- has "mw-translate-fuzzy" expanded ;;
  (if fuzzy then emit cc0_fuzzy else ret tt) ;;;
  untranslated <- has "Template:CC0Notice" expanded ;;
  if untranslated then
    emit cc0_untranslated ;;;
    ret (JStr cc0_placeholder)
  else ret expanded.

End Client.

(** ** Reading aids for the statements *)

(** What [replace("_(", "-")] amounts to, read off the string directly. *)
Fixpoint paren_to_hyphen (s : string) : string :=
  match s with
  | String "_" (String "(" r) => String "-" (paren_to_hyphen r)
  | String c r => String c (paren_to_hyphen r)
  | EmptyString => EmptyString
  end.

(** A title cut at its first slash. *)
Fixpoint before_slash (s : string) : string :=
  match s with
  | EmptyString => EmptyString
  | String c r => if Ascii.eqb c "/" then EmptyString else String c (before_slash r)
  end.

(** One entry of the statistics feed. *)
Record TranslationStats : Type :=
  { language : string; total : Z; translated : Z; fuzzy : Z }.

(** [line] is the JSON object of the entry [e]; further members and the order
    of the members are free. *)
Definition stats_line (e : TranslationStats) (line : json) : Prop :=
  exists d, line = JDict d /\
    Py.assoc "language" d = Some (JStr (language e)) /\
    Py.assoc "total" d = Some (JInt (total e)) /\
    Py.assoc "translated" d = Some (JInt (translated e)) /\
    Py.assoc "fuzzy" d = Some (JInt (fuzzy e)).

Definition unfinished (e : TranslationStats) : bool :=
  total e - fuzzy e - translated e >? 4.

Definition incomplete (e : TranslationStats) : bool :=
  translated e + fuzzy e <? total e.

(** The entries whose language code is part of the result. *)
Definition listed (e : TranslationStats) : bool :=
  (translated e >? 0) && negb (unfinished e).

(** The same with only the entries of exactly zero translated units skipped. *)
Definition listed_as_worded (e : TranslationStats) : bool :=
  negb (translated e =? 0) && negb (unfinished e).

(** What the logger receives for one entry. *)
Definition line_log (page : string) (e : TranslationStats) : list log_record :=
  if translated e >? 0 then
    if unfinished e then
      [ignoring page (JStr (language e)) (JInt (translated e)) (JInt (fuzzy e)) (JInt (total e))]
    else if incomplete e then
      [incomplete_translation page (language e)
         (JInt (translated e)) (JInt (fuzzy e)) (JInt (total e))]
    else []
  else [].

(** [line] is one member of a page's [templates] list: an object, with or
    without a string under [title]. *)
Definition template_entry (title : option string) (line : json) : Prop :=
  exists d, line = JDict d /\ Py.assoc "title" d = option_map JStr title.

Definition stripped_titles (titles : list (option string)) : list json :=
  flat_map (fun t => match t with
                     | Some s => [JStr (before_slash s)]
                     | None => []
                     end) titles.

(** The records of a given level. *)
Definition at_level (l : level) (records : list log_record) : list log_record :=
  filter (fun r => match lvl r, l with
                   | DEBUG, DEBUG | INFO, INFO | WARNING, WARNING => true
                   | _, _ => false
                   end) records.

(** The [k]-th answer to the statistics query of a run that starts in [st]. *)
Definition answer (server : nat -> request -> response) (page : string) (st : state)
  (k : nat) : response :=
  server (List.length (sent st) + k)%nat (msggroupstats_request page).

(** The verdict of ['continue' in json] on that answer. *)
Definition flag (server : nat -> request -> response) (page : string) (st : state)
  (k : nat) : result bool :=
  Py.contains "continue" (body (answer server page st k)).

(** The state once [n] statistics queries have been sent and logged. *)
Definition after_attempts (server : nat -> request -> response) (page : string)
  (st : state) (n : nat) : state :=
  {| sent := sent st ++ repeat (msggroupstats_request page) n;
     log := log st ++
            map (fun k => retrieving page (Z.of_nat (S k))
                            (status_code (answer server page st k)))
                (seq 0 n) |}.

(** The state with the warning about three fruitless tries added. *)
Definition warned (page : string) (st : state) : state :=
  {| sent := sent st; log := log st ++ [still_no_result page] |}.

(** The presence checks that end [get_msggroupstats], on their own. *)
Definition presence (doc : json) : result json :=
  match Py.contains "query" doc with
  | Ok true =>
      match Py.getitem doc (JStr "query") with
      | Ok query =>
          match Py.contains "messagegroupstats" query with
          | Ok true => Ok doc
          | Ok false => Ok (JStr "")
          | Raise e => Raise e
          | OutOfFuel => OutOfFuel
          end
      | Raise e => Raise e
      | OutOfFuel => OutOfFuel
      end
  | Ok false => Ok (JStr "")
  | Raise e => Raise e
  | OutOfFuel => OutOfFuel
  end.

(** The response has the two keys the callers read. *)
Definition has_stats (doc : json) : Prop :=
  exists d q v, doc = JDict d /\ Py.assoc "query" d = Some (JDict q) /\
                Py.assoc "messagegroupstats" q = Some v.

(** The response is an object that lacks one of them. *)
Definition lacks_stats (doc : json) : Prop :=
  exists d, doc = JDict d /\
    (Py.assoc "query" d = None \/
     exists q, Py.assoc "query" d = Some (JDict q) /\
               Py.assoc "messagegroupstats" q = None).

(** *** Sample wikis *)

(** A wiki that answers every request with [doc]. *)
Definition always (doc : json) : nat -> request -> response :=
  fun _ _ => {| status_code := 200; body := doc |}.

(** A wiki that answers the [n]-th request with the [n]-th of [docs]. *)
Definition in_turn (docs : list json) : nat -> request -> response :=
  fun n _ => {| status_code := 200; body := nth n docs JNull |}.

Definition stats_doc (lines : list json) : json :=
  JDict [("batchcomplete", JStr "");
         ("query", JDict [("messagegroupstats", JList lines)])].

Definition stats_entry (code : string) (n t f : Z) : json :=
  JDict [("total", JInt n); ("translated", JInt t); ("fuzzy", JInt f);
         ("proofread", JInt 0); ("code", JStr code); ("language", JStr code)].

Definition partial_doc : json :=
  JDict [("continue", JDict [("mgscontinue", JStr "1")]);
         ("query", JDict [("messagegroupstats", JList [])])].

Definition file_doc (pageid url : string) : json :=
  JDict [("query",
          JDict [("pages",
                  JDict [(pageid,
                          JDict [("title", JStr "File:Prayer.pdf");
                                 ("imageinfo", JList [JDict [("url", JStr url)]])])])])].

Definition templates_doc (titles : list string) : json :=
  JDict [("query",
          JDict [("pages",
                  JDict [("17",
                          JDict [("pageid", JInt 17);
                                 ("templates",
                                  JList (map (fun t => JDict [("ns", JInt 10); ("title", JStr t)])
                                             titles))])])])].

Definition units_doc (units : list (string * json)) : json :=
  JDict [("query",
          JDict [("messagecollection",
                  JList (map (fun u => JDict [("definition", JStr (fst u));
                                              ("translation", snd u)]) units))])].

Definition expansion_doc (wikitext : string) : json :=
  JDict [("expandtemplates", JDict [("wikitext", JStr wikitext)])].

(** ** The remaining operations of the library *)

(** [get_worksheet_list] *)
Definition get_worksheet_list : list string :=
  ["God's_Story_(five_fingers)"; "God's_Story_(first_and_last_sacrifice)";
   "Baptism"; "Prayer"; "Forgiving_Step_by_Step"; "Confessing_Sins_and_Repenting";
   "Time_with_God"; "Hearing_from_God"; "Church"; "Healing";
   "My_Story_with_God"; "Bible_Reading_Bookmark"; "The_Three-Thirds_Process";
   "Training_Meeting_Outline"; "A_Daily_Prayer";
   "Overcoming_Fear_and_Anger"; "Getting_Rid_of_Colored_Lenses";
   "Family_and_our_Relationship_with_God";
   "Overcoming_Negative_Inheritance";
   "Forgiving_Step_by_Step:_Training_Notes"; "Leading_Others_Through_Forgiveness";
   "The_Role_of_a_Helper_in_Prayer"; "Four_Kinds_of_Disciples"].

(** [get_file_types] *)
Definition get_file_types : list string := ["pdf"; "odt"; "odg"].

(** The pattern of [get_language_name] anchored at the start of [s]: an
    opening [<p>], a longest run of characters other than [<] (group 1, the
    result here) and a closing [</p>]. *)
Definition paragraph_at (s : string) : option string :=
  if String.prefix "<p>" s then
    let rest := Re.drop 3 s in
    let inner := Re.span (fun c => negb (Ascii.eqb c "<")) rest in
    if String.prefix "</p>" (Re.drop (String.length inner) rest)
    then Some inner
    else None
  else None.

(** [s.strip()] *)
Definition strip (s : string) : string := Py.rstrip (Py.lstrip s).

Definition language_name_request (lang_parameter : string) : request :=
  [("action", JStr "parse"); ("text", JStr ("{{#language:" ++ lang_parameter ++ "}}"));
   ("contentmodel", JStr "wikitext"); ("format", JStr "json"); ("prop", JStr "text");
   ("disablelimitreport", JStr "true")].

Definition retrieving_units (worksheet languagecode : string) (status : Z) : log_record :=
  {| lvl := INFO;
     text := [Lit "Retrieving translation of "; Lit worksheet; Lit " into language ";
              Lit languagecode; Lit "... "; Str (JInt status)] |}.

Section Lookups.

Variable server : nat -> request -> response.

(** *** [get_language_name] *)

Definition get_language_name (language_code : string) (translate_to : option string)
  : M json :=
  let lang_parameter :=
    match translate_to with
    | Some t => language_code ++ "|" ++ t
    | None => language_code
    end in
  resp <- requests_get server (language_name_request lang_parameter) ;;
  let doc := body resp in
  has_parse <- has "parse" doc ;;
  if has_parse then
    parse <- item doc "parse" ;;
    has_text <- has "text" parse ;;
    if has_text then
      text <- item parse "text" ;;
      has_star <- has "*" text ;;
      if has_star then
        html <- item text "*" ;;
        langname <- re_search paragraph_at html ;;
        match langname with
        | Some group1 => ret (JStr (strip group1))
        | None => ret JNull
        end
      else ret JNull
    else ret JNull
  else ret JNull.

(** *** [get_translation_units] *)

Definition get_translation_units (worksheet languagecode : string) : M json :=
  let parameters := messagecollection_request worksheet languagecode in
  resp <- requests_get server parameters ;;
  emit (retrieving_units worksheet languagecode (status_code resp)) ;;;
  let doc := body resp in
  has_error <- has "error" doc ;;
  if has_error then
    error <- item doc "error" ;;
    has_info <- has "info" error ;;
    if has_info then
      info <- item error "info" ;;
      match info with
      | JStr i => ret (JStr ("Couldn't get translation units. Error: " ++ i))
      | _ => lift (Raise TypeError)
      end
    else ret (JStr "Couldn't get translation units. Strange error.")
  else
    has_query <- has "query" doc ;;
    if negb has_query then ret (JStr "Couldn't get translation units. Some serious error")
    else
      query <- item doc "query" ;;
      has_collection <- has "messagecollection" query ;;
      if negb has_collection
      then ret (JStr "Couldn't get translation units. Unexpected error.")
      else item query "messagecollection".

End Lookups.

(** *** Further reading aids *)

(** [s] ends with [suffix]. *)
Fixpoint ends_with (suffix s : string) : bool :=
  String.eqb suffix s ||
  match s with
  | EmptyString => false
  | String _ s' => ends_with suffix s'
  end.

Definition newline : string := String (ascii_of_nat 10) EmptyString.

(** The definition of a translation unit names a PDF file. *)
Definition names_pdf (definition : string) : bool :=
  ends_with ".pdf" definition || ends_with (".pdf" ++ newline) definition.

(** [line] is the JSON object of a translation unit with the given source
    text and translation. *)
Definition unit_line (u : string * json) (line : json) : Prop :=
  exists d, line = JDict d /\
    Py.assoc "definition" d = Some (JStr (fst u)) /\
    Py.assoc "translation" d = Some (snd u).

(** The translation of the last unit that names a PDF file. *)
Definition last_pdf (units : list (string * json)) : option json :=
  fold_left (fun found u => if names_pdf (fst u) then Some (snd u) else found) units None.

(** Every character of [s] satisfies [p]. *)
Fixpoint all_chars (p : ascii -> bool) (s : string) : bool :=
  match s with
  | EmptyString => true
  | String c s' => p c && all_chars p s'
  end.


Definition parse_doc (html : string) : json :=
  JDict [("parse", JDict [("text", JDict [("*", JStr html)])])].

Definition error_doc (info : string) : json :=
  JDict [("error", JDict [("code", JStr "badvalue"); ("info", JStr info)]);
         ("servedby", JStr "web")].


Definition is_not (c : ascii) : ascii -> bool := fun x => negb (Ascii.eqb x c).

(** [doc] is a response of the parser that carries the rendered text [html]:
    [parse.text['*']]. *)
Definition parsed_text (doc : json) (html : string) : Prop :=
  exists d p t,
    doc = JDict d /\
    Py.assoc "parse" d = Some (JDict p) /\
    Py.assoc "text" p = Some (JDict t) /\
    Py.assoc "*" t = Some (JStr html).

(** [doc] is an object without [parse.text['*']]. *)
Definition no_parsed_text (doc : json) : Prop :=
  exists d, doc = JDict d /\
    (Py.assoc "parse" d = None \/
     exists p, Py.assoc "parse" d = Some (JDict p) /\
       (Py.assoc "text" p = None \/
        exists t, Py.assoc "text" p = Some (JDict t) /\ Py.assoc "*" t = None)).

(** The parameter [text] of the request for a language name. *)
Definition language_parameter (language_code : string) (translate_to : option string)
  : string :=
  match translate_to with
  | Some t => language_code ++ "|" ++ t
  | None => language_code
  end.

(** A computation that sends no request. *)
Definition quiet {A : Type} (c : M A) : Prop :=
  forall st, sent (snd (c st)) = sent st.

(** The warning of [expand_template]. *)
Definition could_not_expand (raw_template : string) : log_record :=
  {| lvl := WARNING;
     text := [Lit "Warning: couldn't expand template "; Lit raw_template] |}.

(** [doc] is an object without [expandtemplates.wikitext]. *)
Definition no_expansion (doc : json) : Prop :=
  exists d, doc = JDict d /\
    (Py.assoc "expandtemplates" d = None \/
     exists e, Py.assoc "expandtemplates" d = Some (JDict e) /\
               Py.assoc "wikitext" e = None).

(** [doc] is an object that does not lead to the templates of exactly one
    page. *)
Definition no_templates (doc : json) : Prop :=
  exists d, doc = JDict d /\
    (Py.assoc "query" d = None \/
     exists q, Py.assoc "query" d = Some (JDict q) /\
       (Py.assoc "pages" q = None \/
        exists pages, Py.assoc "pages" q = Some (JDict pages) /\
          (List.length pages <> 1%nat \/
           exists pageid entry, pages = [(pageid, JDict entry)] /\
                                Py.assoc "templates" entry = None))).

(** ** The static helpers *)

Section Strings.

Local Open Scope char_scope.

Lemma prefix_single (c d : ascii) (s : string) :
  String.prefix (String c EmptyString) (String d s) = Ascii.eqb d c.
Proof.
  simpl. destruct (ascii_dec c d) as [->|ne].
  - rewrite Ascii.eqb_refl. now destruct s.
  - symmetry. apply Ascii.eqb_neq. congruence.
Qed.

Lemma replace_removes (c : ascii) (s : string) :
  PyStr.replace (String c EmptyString) EmptyString s = PyStr.without c s.
Proof.
  unfold PyStr.replace.
  induction s as [|d s IH]; [reflexivity|].
  cbn [PyStr.replace_scan PyStr.without]. rewrite prefix_single.
  destruct (Ascii.eqb d c); cbn; now rewrite IH.
Qed.

Lemma replace_paren_step (c : ascii) (s : string) :
  PyStr.replace_scan "_(" "-" 0 (String c s) =
  match c, s with
  | "_", String "(" r => String "-" (PyStr.replace_scan "_(" "-" 0 r)
  | _, _ => String c (PyStr.replace_scan "_(" "-" 0 s)
  end.
Proof.
  cbn [PyStr.replace_scan String.prefix].
  destruct (ascii_dec "_" c) as [<-|ne].
  - destruct s as [|d r]; [reflexivity|].
    destruct (ascii_dec "(" d) as [<-|ne'].
    + now destruct r.
    + destruct d as [[] [] [] [] [] [] [] []]; try reflexivity. now elim ne'.
  - destruct c as [[] [] [] [] [] [] [] []]; try reflexivity. now elim ne.
Qed.

Lemma replace_paren (s : string) :
  PyStr.replace "_(" "-" s = paren_to_hyphen s.
Proof.
  unfold PyStr.replace.
  assert (H : forall n s, (String.length s <= n)%nat ->
              PyStr.replace_scan "_(" "-" 0 s = paren_to_hyphen s).
  { clear s. induction n as [|n IH]; intros s Hn.
    - destruct s; [reflexivity | simpl in Hn; lia].
    - destruct s as [|c s]; [reflexivity|].
      rewrite replace_paren_step. simpl in Hn.
      assert (Hs : PyStr.replace_scan "_(" "-" 0 s = paren_to_hyphen s)
        by (apply IH; lia).
      destruct s as [|d r].
      + now destruct c as [[] [] [] [] [] [] [] []].
      + assert (Hr : PyStr.replace_scan "_(" "-" 0 r = paren_to_hyphen r)
          by (apply IH; simpl in Hn; lia).
        destruct c as [[] [] [] [] [] [] [] []];
          try (cbn [paren_to_hyphen]; now rewrite Hs).
        destruct d as [[] [] [] [] [] [] [] []];
          try (cbn [paren_to_hyphen]; now rewrite Hs).
        cbn [paren_to_hyphen]. now rewrite Hr. }
  now apply (H (String.length s)).
Qed.

Lemma occurs_app (d : ascii) (a b : string) :
  PyStr.occurs d (a ++ b) <-> PyStr.occurs d a \/ PyStr.occurs d b.
Proof.
  induction a as [|c a IH]; simpl; [tauto|]. rewrite IH. tauto.
Qed.

Lemma without_gone (c : ascii) (s : string) : ~ PyStr.occurs c (PyStr.without c s).
Proof.
  induction s as [|d s IH]; simpl; [tauto|].
  destruct (Ascii.eqb_spec d c); simpl; tauto.
Qed.

Lemma without_keeps (d c : ascii) (s : string) :
  PyStr.occurs d (PyStr.without c s) -> PyStr.occurs d s.
Proof.
  induction s as [|e s IH]; simpl; [tauto|].
  destruct (Ascii.eqb e c); simpl; tauto.
Qed.

Lemma occurs_lower (d : ascii) (s : string) :
  PyStr.occurs d (PyStr.lower s) ->
  exists c, PyStr.occurs c s /\ d = PyStr.lower_char c.
Proof.
  induction s as [|e s IH]; simpl; [tauto|].
  intros [<-|H].
  - exists e. auto.
  - destruct (IH H) as (c & Hc & ->). exists c. auto.
Qed.

Lemma lower_char_not_upper (c : ascii) : PyStr.is_upper (PyStr.lower_char c) = false.
Proof. destruct c as [[] [] [] [] [] [] [] []]; reflexivity. Qed.

(** Lower-casing produces none of the punctuation that was removed. *)
Lemma lower_char_punct (c : ascii) :
  (PyStr.lower_char c = ")" -> c = ")") /\
  (PyStr.lower_char c = "'" -> c = "'") /\
  (PyStr.lower_char c = "_" -> c = "_") /\
  (PyStr.lower_char c = ":" -> c = ":").
Proof.
  destruct c as [[] [] [] [] [] [] [] []]; vm_compute;
    repeat split; intro H; solve [reflexivity | discriminate H].
Qed.

End Strings.

Lemma str_in_list_In (s : string) (l : list string) :
  str_in_list s l = true <-> In s l.
Proof.
  induction l as [|x l IH]; simpl.
  - split; [discriminate | tauto].
  - rewrite orb_true_iff, IH, String.eqb_eq. split; intros [H|H]; auto.
Qed.

(** C8.  [get_language_direction] answers ["rtl"] exactly for the codes of the
    fixed right-to-left table and ["ltr"] for every other string, the empty
    string and unknown codes among them. *)
Theorem get_language_direction_table (languagecode : string) :
  (get_language_direction languagecode = "rtl" <-> In languagecode RTL) /\
  (get_language_direction languagecode = "ltr" <-> ~ In languagecode RTL) /\
  get_language_direction "" = "ltr" /\
  get_language_direction "xx-unknown" = "ltr".
Proof.
  unfold get_language_direction.
  pose proof (str_in_list_In languagecode RTL) as H.
  destruct (str_in_list languagecode RTL).
  - repeat split; try reflexivity; try tauto; try discriminate.
  - repeat split; try reflexivity; try discriminate.
    + intro Hin. apply H in Hin. discriminate.
    + intros _ Hin. apply H in Hin. discriminate.
Qed.

Lemma title_to_message_unfold (title : string) :
  title_to_message title =
  "sidebar-" ++
    PyStr.lower
      (PyStr.without ":"
         (PyStr.without "_"
            (PyStr.without "'"
               (PyStr.without ")"
                  (paren_to_hyphen (PyStr.without "-" title)))))).
Proof.
  unfold title_to_message. now rewrite !replace_removes, replace_paren.
Qed.

(** C5, as amended.  [title_to_message] removes the hyphens, turns every
    underscore followed by an opening parenthesis into a hyphen, removes the
    closing parentheses, the apostrophes, the underscores and the colons,
    lower-cases and puts ["sidebar-"] in front, in this order; the three
    documented titles give the documented keys. *)
Theorem title_to_message_steps :
  (forall title : string,
     title_to_message title =
     "sidebar-" ++
       PyStr.lower
         (PyStr.without ":"
            (PyStr.without "_"
               (PyStr.without "'"
                  (PyStr.without ")"
                     (paren_to_hyphen (PyStr.without "-" title))))))) /\
  title_to_message "Prayer" = "sidebar-prayer" /\
  title_to_message "The_Three-Thirds_Process" = "sidebar-thethreethirdsprocess" /\
  title_to_message "God's_Story_(five_fingers)" = "sidebar-godsstory-fivefingers".
Proof.
  split; [exact title_to_message_unfold | repeat split; reflexivity].
Qed.

(** C5, as worded.  With the second step read as "space, opening parenthesis"
    the transform is not the one of the code: the two differ on a title with
    a space before a parenthesis, and the worded one misses the third
    documented key. *)
Lemma title_to_message_as_worded_differs :
  title_to_message "A (b)" = "sidebar-a (b" /\
  title_to_message_as_worded "A (b)" = "sidebar-a-b" /\
  title_to_message_as_worded "God's_Story_(five_fingers)" <> "sidebar-godsstory-fivefingers".
Proof. repeat split. vm_compute. discriminate. Qed.

(** C10.  Whatever the title, the message key starts with ["sidebar-"] and
    holds no closing parenthesis, apostrophe, underscore, colon or upper-case
    ASCII letter. *)
Theorem title_to_message_alphabet (title : string) :
  String.prefix "sidebar-" (title_to_message title) = true /\
  ~ PyStr.occurs ")" (title_to_message title) /\
  ~ PyStr.occurs "'" (title_to_message title) /\
  ~ PyStr.occurs "_" (title_to_message title) /\
  ~ PyStr.occurs ":" (title_to_message title) /\
  (forall c, PyStr.occurs c (title_to_message title) -> PyStr.is_upper c = false).
Proof.
  rewrite title_to_message_unfold.
  set (body := PyStr.without "-" title).
  assert (H : forall d, PyStr.occurs d
              ("sidebar-" ++ PyStr.lower
                 (PyStr.without ":" (PyStr.without "_" (PyStr.without "'"
                    (PyStr.without ")" (paren_to_hyphen body)))))) ->
              PyStr.occurs d "sidebar-" \/
              exists c, d = PyStr.lower_char c /\ c <> ")"%char /\ c <> "'"%char
                        /\ c <> "_"%char /\ c <> ":"%char).
  { intros d Hd. apply occurs_app in Hd. destruct Hd as [Hd|Hd]; [now left|right].
    apply occurs_lower in Hd. destruct Hd as (c & Hc & ->).
    exists c. split; [reflexivity|].
    repeat split; intros ->.
    - do 3 apply without_keeps in Hc. now apply without_gone in Hc.
    - do 2 apply without_keeps in Hc. now apply without_gone in Hc.
    - apply without_keeps in Hc. now apply without_gone in Hc.
    - now apply without_gone in Hc. }
  split; [cbn; now destruct (PyStr.lower _)|].
  assert (P : forall d, PyStr.occurs d "sidebar-" ->
                d <> ")"%char /\ d <> "'"%char /\ d <> "_"%char /\ d <> ":"%char
                /\ PyStr.is_upper d = false).
  { intros d Hd. simpl in Hd.
    repeat (destruct Hd as [<-|Hd]; [repeat split; discriminate|]). tauto. }
  repeat split.
  - intro Hd. apply H in Hd. destruct Hd as [Hd|(c & E & n1 & n2 & n3 & n4)].
    + now apply P in Hd.
    + symmetry in E. now apply lower_char_punct in E.
  - intro Hd. apply H in Hd. destruct Hd as [Hd|(c & E & n1 & n2 & n3 & n4)].
    + now apply P in Hd.
    + symmetry in E. now apply lower_char_punct in E.
  - intro Hd. apply H in Hd. destruct Hd as [Hd|(c & E & n1 & n2 & n3 & n4)].
    + now apply P in Hd.
    + symmetry in E. now apply lower_char_punct in E.
  - intro Hd. apply H in Hd. destruct Hd as [Hd|(c & E & n1 & n2 & n3 & n4)].
    + now apply P in Hd.
    + symmetry in E. now apply lower_char_punct in E.
  - intros d Hd. apply H in Hd. destruct Hd as [Hd|(c & -> & _)].
    + now apply P in Hd.
    + apply lower_char_not_upper.
Qed.

(** ** Running the remote operations *)

Ltac run :=
  unfold bind, requests_get, emit, logger, item, has, lift, ret; cbn.

(** *** File lookup *)

(** C7, as amended.  When the response lists its pages under [query.pages]:
    [get_file_url] answers [None] if the number of pages listed is not one,
    and if the id of the single page reads as -1; with a single page of
    another id it answers the [url] of the first [imageinfo] record of that
    page. *)
Theorem get_file_url_cases
  (server : nat -> request -> response) (filename : string) (st : state)
  (d q pages : list (string * json)) :
  body (server (List.length (sent st)) (file_url_request filename)) = JDict d ->
  Py.assoc "query" d = Some (JDict q) ->
  Py.assoc "pages" q = Some (JDict pages) ->
  let found := fst (get_file_url server filename st) in
  (List.length pages <> 1%nat -> found = Ok JNull) /\
  (forall id page,
     pages = [(id, page)] -> Py.int_of_string id = Ok (-1) -> found = Ok JNull) /\
  (forall id page n image rest url,
     pages = [(id, JDict page)] -> Py.int_of_string id = Ok n -> n <> -1 ->
     Py.assoc "imageinfo" page = Some (JList (JDict image :: rest)) ->
     Py.assoc "url" image = Some url ->
     found = Ok url).
Proof.
  intros Hb Hq Hp found. subst found.
  unfold get_file_url. run. rewrite Hb. cbn. rewrite Hq. cbn. rewrite Hp. cbn.
  rewrite length_map. repeat split.
  - intro Hn. destruct (Z.of_nat (List.length pages) =? 1) eqn:E; [|reflexivity].
    apply Z.eqb_eq in E. lia.
  - intros id page -> Hid. cbn. rewrite Hid. reflexivity.
  - intros id page n image rest url -> Hid Hn Hi Hu. cbn. rewrite Hid.
    destruct (n =? -1) eqn:E; [apply Z.eqb_eq in E; lia|].
    cbn. rewrite String.eqb_refl. cbn. rewrite Hi. cbn. rewrite Hu. reflexivity.
Qed.

Lemma get_file_url_cases_witness :
  fst (get_file_url (always (file_doc "42" "https://www.4training.net/mediawiki/images/a/af/Prayer.pdf"))
         "Prayer.pdf" initial)
  = Ok (JStr "https://www.4training.net/mediawiki/images/a/af/Prayer.pdf").
Proof.
  refine (proj2 (proj2 (get_file_url_cases
            (always (file_doc "42" "https://www.4training.net/mediawiki/images/a/af/Prayer.pdf"))
            "Prayer.pdf" initial _ _ _ eq_refl eq_refl eq_refl))
            "42" _ 42 _ _ _ eq_refl eq_refl _ eq_refl eq_refl).
  discriminate.
Defined.

(** C7, as worded.  A single page whose id is negative but not -1 is looked
    up like any other page, and its URL is returned; a response that lists no
    page at all is answered with [None], not with a URL. *)
Lemma get_file_url_negative_id_not_refused :
  Py.int_of_string "-2" = Ok (-2) /\
  fst (get_file_url (always (file_doc "-2" "https://www.4training.net/mediawiki/images/a/af/Prayer.pdf"))
         "Prayer.pdf" initial)
  = Ok (JStr "https://www.4training.net/mediawiki/images/a/af/Prayer.pdf") /\
  fst (get_file_url (always (JDict [("query", JDict [("pages", JDict [])])]))
         "Prayer.pdf" initial)
  = Ok JNull.
Proof. repeat split. Qed.

(** *** Templates of a page *)

Lemma find_slash_bounds (s : string) : -1 <= PyStr.find_char "/" s.
Proof.
  induction s as [|c s IH]; cbn; [lia|].
  destruct (Ascii.eqb c "/"); [lia|].
  destruct (PyStr.find_char "/" s =? -1); lia.
Qed.

Lemma find_slash_absent (s : string) :
  PyStr.find_char "/" s = -1 -> before_slash s = s.
Proof.
  induction s as [|c s IH]; cbn; [reflexivity|].
  destruct (Ascii.eqb c "/"); [discriminate|].
  destruct (PyStr.find_char "/" s =? -1) eqn:E.
  - apply Z.eqb_eq in E. intros _. now rewrite IH.
  - pose proof (find_slash_bounds s). lia.
Qed.

Lemma find_slash_cut (s : string) :
  PyStr.find_char "/" s <> -1 ->
  PyStr.slice_to (PyStr.find_char "/" s) s = before_slash s.
Proof.
  unfold PyStr.slice_to.
  induction s as [|c s IH]; cbn; [congruence|].
  destruct (Ascii.eqb c "/"); [reflexivity|].
  pose proof (find_slash_bounds s) as B.
  destruct (PyStr.find_char "/" s =? -1) eqn:E; [congruence|].
  apply Z.eqb_neq in E. intros _.
  replace (Z.to_nat (PyStr.find_char "/" s + 1))
    with (S (Z.to_nat (PyStr.find_char "/" s))) by lia.
  cbn. now rewrite IH.
Qed.

Lemma template_line_entry
  (title : option string) (line : json) (result : list json) (st : state) :
  template_entry title line ->
  template_line result line st = (Ok (result ++ stripped_titles [title])%list, st).
Proof.
  intros (d & -> & Ht). unfold template_line. run. rewrite Ht.
  destruct title as [s|]; cbn; [|now rewrite app_nil_r].
  destruct (PyStr.find_char "/" s =? -1) eqn:E.
  - apply Z.eqb_eq in E. now rewrite find_slash_absent.
  - apply Z.eqb_neq in E. pose proof (find_slash_bounds s) as B.
    destruct (PyStr.find_char "/" s <? 0) eqn:N; [apply Z.ltb_lt in N; lia|].
    rewrite (find_slash_cut s E). reflexivity.
Qed.

Lemma template_lines_entries
  (titles : list (option string)) (lines : list json) :
  Forall2 template_entry titles lines ->
  forall (result : list json) (st : state),
    for_each lines template_line result st
    = (Ok (result ++ stripped_titles titles)%list, st).
Proof.
  induction 1 as [|title line titles lines Hl _ IH]; intros result st.
  - cbn. unfold ret. now rewrite app_nil_r.
  - cbn [for_each]. unfold bind. rewrite (template_line_entry title line result st Hl).
    rewrite IH, <- app_assoc. do 3 f_equal.
    unfold stripped_titles. cbn [flat_map]. now rewrite app_nil_r.
Qed.

(** C9.  For a response with one page whose [templates] list holds objects
    with string titles, [list_page_templates] returns, in the order of the
    list, each title cut at its first slash, and the whole title when it has
    no slash. *)
Theorem list_page_templates_strips
  (server : nat -> request -> response) (page : string) (st : state)
  (d q entry : list (string * json)) (pageid : string)
  (lines : list json) (titles : list (option string)) :
  body (server (List.length (sent st)) (templates_request page)) = JDict d ->
  Py.assoc "query" d = Some (JDict q) ->
  Py.assoc "pages" q = Some (JDict [(pageid, JDict entry)]) ->
  Py.assoc "templates" entry = Some (JList lines) ->
  Forall2 template_entry titles lines ->
  fst (list_page_templates server page st) = Ok (stripped_titles titles) /\
  (forall s, ~ PyStr.occurs "/" (before_slash s) /\
             (before_slash s = s \/ exists r, s = before_slash s ++ String "/" r)).
Proof.
  intros Hb Hq Hp Ht Hl. split.
  - unfold list_page_templates. run. rewrite Hb. cbn. rewrite Hq. cbn. rewrite Hp. cbn.
    rewrite String.eqb_refl. cbn. rewrite Ht. cbn.
    now rewrite (template_lines_entries titles lines Hl).
  - induction s as [|c s IH]; cbn; [tauto|].
    destruct (Ascii.eqb_spec c "/") as [->|ne]; cbn.
    + split; [tauto|]. right. now exists s.
    + destruct IH as [N [E|(r & E)]]; (split; [tauto|]).
      * left. now rewrite E.
      * right. exists r. now rewrite <- E.
Qed.

Lemma list_page_templates_strips_witness :
  fst (list_page_templates
         (always (templates_doc ["Template:Italic/en"; "Template:BibleReadingHints"]))
         "Bible_Reading_Bookmark" initial)
  = Ok [JStr "Template:Italic"; JStr "Template:BibleReadingHints"].
Proof.
  refine (proj1 (list_page_templates_strips
            (always (templates_doc ["Template:Italic/en"; "Template:BibleReadingHints"]))
            "Bible_Reading_Bookmark" initial _ _ _ "17" _
            [Some "Template:Italic/en"; Some "Template:BibleReadingHints"]
            eq_refl eq_refl eq_refl eq_refl _)).
  repeat constructor; eexists; (split; [reflexivity|reflexivity]).
Defined.

(** *** Translation statistics *)

Section Polling.

Variable server : nat -> request -> response.
Variable page : string.
Variable st : state.

Lemma after_no_attempt : after_attempts server page st 0 = st.
Proof.
  unfold after_attempts. cbn. rewrite !app_nil_r. now destruct st.
Qed.

Lemma poll_attempt (f k : nat) (last : option json) :
  (k < 3)%nat ->
  poll server (S f) page (Z.of_nat (S k)) last (after_attempts server page st k) =
  match flag server page st k with
  | Ok false =>
      (Ok (Z.of_nat (S k), Some (body (answer server page st k))),
       after_attempts server page st (S k))
  | Ok true =>
      poll server f page (Z.of_nat (S (S k))) (Some (body (answer server page st k)))
        (after_attempts server page st (S k))
  | Raise e => (Raise e, after_attempts server page st (S k))
  | OutOfFuel => (OutOfFuel, after_attempts server page st (S k))
  end.
Proof.
  intro Hk. cbn [poll].
  destruct (Z.of_nat (S k) <? 4) eqn:E; [|apply Z.ltb_ge in E; lia].
  assert (Hs : {| sent := sent (after_attempts server page st k)
                          ++ [msggroupstats_request page];
                  log := log (after_attempts server page st k)
                         ++ [retrieving page (Z.of_nat (S k))
                               (status_code (answer server page st k))] |}
               = after_attempts server page st (S k)).
  { unfold after_attempts. cbn [sent log]. f_equal.
    - rewrite <- app_assoc. f_equal. change [msggroupstats_request page]
        with (repeat (msggroupstats_request page) 1).
      rewrite <- repeat_app. f_equal. lia.
    - rewrite seq_S, map_app, app_assoc. reflexivity. }
  unfold bind, requests_get, emit, logger, has, lift, ret, flag.
  cbn [sent log lvl text retrieving fst snd].
  replace (List.length (sent (after_attempts server page st k)))
    with (List.length (sent st) + k)%nat
    by (unfold after_attempts; cbn [sent]; now rewrite length_app, repeat_length).
  fold (answer server page st k).
  unfold retrieving in Hs. cbn [lvl text] in *.
  rewrite Hs.
  replace (Z.of_nat (S k) + 1) with (Z.of_nat (S (S k))) by lia.
  destruct (Py.contains "continue" (body (answer server page st k))) as [[|]| |];
    reflexivity.
Qed.

Lemma poll_three (f : nat) :
  poll server (S (S (S f))) page 1 None st =
  match flag server page st 0 with
  | Ok false => (Ok (1, Some (body (answer server page st 0))), after_attempts server page st 1)
  | Ok true =>
      match flag server page st 1 with
      | Ok false =>
          (Ok (2, Some (body (answer server page st 1))), after_attempts server page st 2)
      | Ok true =>
          match flag server page st 2 with
          | Ok false =>
              (Ok (3, Some (body (answer server page st 2))), after_attempts server page st 3)
          | Ok true =>
              (Ok (4, Some (body (answer server page st 2))), after_attempts server page st 3)
          | Raise e => (Raise e, after_attempts server page st 3)
          | OutOfFuel => (OutOfFuel, after_attempts server page st 3)
          end
      | Raise e => (Raise e, after_attempts server page st 2)
      | OutOfFuel => (OutOfFuel, after_attempts server page st 2)
      end
  | Raise e => (Raise e, after_attempts server page st 1)
  | OutOfFuel => (OutOfFuel, after_attempts server page st 1)
  end.
Proof.
  transitivity (poll server (S (S (S f))) page (Z.of_nat 1) None
                  (after_attempts server page st 0));
    [now rewrite after_no_attempt|].
  rewrite (poll_attempt (S (S f)) 0 None) by lia.
  destruct (flag server page st 0) as [[|]| |]; try reflexivity.
  rewrite (poll_attempt (S f) 1) by lia.
  destruct (flag server page st 1) as [[|]| |]; try reflexivity.
  rewrite (poll_attempt f 2) by lia.
  destruct (flag server page st 2) as [[|]| |]; try reflexivity.
  now destruct f.
Qed.

Lemma after_poll_presence (counter : Z) (doc : json) (s : state) :
  after_poll page counter doc s =
  match Py.contains "continue" doc with
  | Ok more => (presence doc, if more || (counter =? 4) then warned page s else s)
  | Raise e => (Raise e, s)
  | OutOfFuel => (OutOfFuel, s)
  end.
Proof.
  unfold after_poll, presence, bind, emit, logger, has, item, lift, ret, warned.
  destruct (Py.contains "continue" doc) as [more| |]; try reflexivity.
  destruct (more || (counter =? 4)); cbn [lvl text still_no_result];
    (destruct (Py.contains "query" doc) as [[|]| |]; try reflexivity;
     cbn [negb];
     destruct (Py.getitem doc (JStr "query")) as [query| |]; try reflexivity;
     destruct (Py.contains "messagegroupstats" query) as [[|]| |]; reflexivity).
Qed.

End Polling.

Lemma contains_total (k : string) (x : json) : Py.contains k x <> OutOfFuel.
Proof. destruct x; discriminate. Qed.

Lemma getitem_total (x k : json) : Py.getitem x k <> OutOfFuel.
Proof.
  destruct x as [| | |s|l|d]; cbn; try discriminate.
  - destruct k; try discriminate; unfold Py.index;
      match goal with |- context [if ?c then _ else _] => destruct c end;
      try discriminate;
      match goal with |- context [nth_error ?l ?n] => destruct (nth_error l n) end;
      discriminate.
  - destruct k; try discriminate; unfold Py.index;
      match goal with |- context [if ?c then _ else _] => destruct c end;
      try discriminate;
      match goal with |- context [nth_error ?l ?n] => destruct (nth_error l n) end;
      discriminate.
  - destruct k; try discriminate. destruct (Py.assoc s d); discriminate.
Qed.

Lemma presence_total (doc : json) : presence doc <> OutOfFuel.
Proof.
  unfold presence.
  pose proof (contains_total "query" doc).
  destruct (Py.contains "query" doc) as [[|]| |]; try discriminate; try congruence.
  pose proof (getitem_total doc (JStr "query")).
  destruct (Py.getitem doc (JStr "query")) as [q| |]; try discriminate; try congruence.
  pose proof (contains_total "messagegroupstats" q).
  destruct (Py.contains "messagegroupstats" q) as [[|]| |];
    try discriminate; congruence.
Qed.

Lemma presence_has_stats (doc : json) : has_stats doc -> presence doc = Ok doc.
Proof.
  intros (d & q & v & -> & Hq & Hv). unfold presence. cbn.
  rewrite Hq. cbn. now rewrite Hv.
Qed.

Lemma presence_lacks_stats (doc : json) : lacks_stats doc -> presence doc = Ok (JStr "").
Proof.
  intros (d & -> & [Hq|(q & Hq & Hv)]); unfold presence; cbn; rewrite Hq; cbn.
  - reflexivity.
  - now rewrite Hv.
Qed.

Section Statistics.

Variable server : nat -> request -> response.
Variable page : string.
Variable st : state.

Lemma get_msggroupstats_three (f : nat) :
  get_msggroupstats server (S (S (S f))) page st =
  match flag server page st 0 with
  | Ok false => after_poll page 1 (body (answer server page st 0)) (after_attempts server page st 1)
  | Ok true =>
      match flag server page st 1 with
      | Ok false =>
          after_poll page 2 (body (answer server page st 1)) (after_attempts server page st 2)
      | Ok true =>
          match flag server page st 2 with
          | Ok false =>
              after_poll page 3 (body (answer server page st 2))
                (after_attempts server page st 3)
          | Ok true =>
              after_poll page 4 (body (answer server page st 2))
                (after_attempts server page st 3)
          | Raise e => (Raise e, after_attempts server page st 3)
          | OutOfFuel => (OutOfFuel, after_attempts server page st 3)
          end
      | Raise e => (Raise e, after_attempts server page st 2)
      | OutOfFuel => (OutOfFuel, after_attempts server page st 2)
      end
  | Raise e => (Raise e, after_attempts server page st 1)
  | OutOfFuel => (OutOfFuel, after_attempts server page st 1)
  end.
Proof.
  unfold get_msggroupstats. unfold bind at 1. rewrite poll_three.
  destruct (flag server page st 0) as [[|]| |]; try reflexivity.
  destruct (flag server page st 1) as [[|]| |]; try reflexivity.
  destruct (flag server page st 2) as [[|]| |]; reflexivity.
Qed.

(** The run stops at the first answer without the flag. *)
Lemma get_msggroupstats_stops (fuel k : nat) :
  (3 <= fuel)%nat -> (k < 3)%nat ->
  (forall j, (j < k)%nat -> flag server page st j = Ok true) ->
  flag server page st k = Ok false ->
  get_msggroupstats server fuel page st =
  (presence (body (answer server page st k)), after_attempts server page st (S k)).
Proof.
  intros Hf Hk Hj Hflag.
  destruct fuel as [|[|[|f]]]; try lia.
  rewrite get_msggroupstats_three.
  destruct k as [|[|[|k]]]; try lia.
  - rewrite Hflag, after_poll_presence. fold (flag server page st 0). now rewrite Hflag.
  - rewrite (Hj 0%nat) by lia. rewrite Hflag, after_poll_presence.
    fold (flag server page st 1). now rewrite Hflag.
  - rewrite (Hj 0%nat), (Hj 1%nat) by lia. rewrite Hflag, after_poll_presence.
    fold (flag server page st 2). now rewrite Hflag.
Qed.

(** After three answers with the flag the third one is used, with a warning. *)
Lemma get_msggroupstats_gives_up (fuel : nat) :
  (3 <= fuel)%nat ->
  (forall j, (j < 3)%nat -> flag server page st j = Ok true) ->
  get_msggroupstats server fuel page st =
  (presence (body (answer server page st 2)),
   warned page (after_attempts server page st 3)).
Proof.
  intros Hf Hj.
  destruct fuel as [|[|[|f]]]; try lia.
  rewrite get_msggroupstats_three.
  rewrite (Hj 0%nat), (Hj 1%nat), (Hj 2%nat) by lia.
  rewrite after_poll_presence. fold (flag server page st 2). now rewrite (Hj 2%nat) by lia.
Qed.

Lemma after_poll_sent (counter : Z) (doc : json) (n : nat) :
  sent (snd (after_poll page counter doc (after_attempts server page st n)))
  = (sent st ++ repeat (msggroupstats_request page) n)%list.
Proof.
  rewrite after_poll_presence.
  destruct (Py.contains "continue" doc) as [more| |]; try reflexivity.
  now destruct (more || (counter =? 4)).
Qed.

Lemma after_poll_total (counter : Z) (doc : json) (s : state) :
  fst (after_poll page counter doc s) <> OutOfFuel.
Proof.
  rewrite after_poll_presence. pose proof (contains_total "continue" doc) as T.
  destruct (Py.contains "continue" doc) as [more| |]; cbn;
    [apply presence_total | discriminate | congruence].
Qed.

End Statistics.

(** C6.  With fuel for three rounds the loop of [get_msggroupstats] always
    comes to an end; it sends between one and three requests, all the same;
    it stops at the first answer without ['continue'], sends nothing more and
    logs no warning; after three answers with ['continue'] it logs the
    warning and goes on with the third answer.  The answer it ends with is
    returned as it is when it has [query.messagegroupstats], and the empty
    string is returned when [query] or [messagegroupstats] is missing. *)
Theorem get_msggroupstats_polls
  (server : nat -> request -> response) (fuel : nat) (page : string) (st : state) :
  (3 <= fuel)%nat ->
  let run := get_msggroupstats server fuel page st in
  fst run <> OutOfFuel /\
  (exists n, (1 <= n <= 3)%nat /\
             sent (snd run) = (sent st ++ repeat (msggroupstats_request page) n)%list) /\
  (forall k, (k < 3)%nat ->
     (forall j, (j < k)%nat -> flag server page st j = Ok true) ->
     flag server page st k = Ok false ->
     snd run = after_attempts server page st (S k) /\
     fst run = presence (body (answer server page st k))) /\
  ((forall j, (j < 3)%nat -> flag server page st j = Ok true) ->
     snd run = warned page (after_attempts server page st 3) /\
     fst run = presence (body (answer server page st 2))) /\
  (forall n, at_level WARNING (log (after_attempts server page st n))
             = at_level WARNING (log st)) /\
  (forall doc, (has_stats doc -> presence doc = Ok doc) /\
               (lacks_stats doc -> presence doc = Ok (JStr ""))).
Proof.
  intros Hf run. subst run. repeat split.
  - destruct fuel as [|[|[|f]]]; try lia. rewrite get_msggroupstats_three.
    pose proof (contains_total "continue" (body (answer server page st 0))) as T0.
    pose proof (contains_total "continue" (body (answer server page st 1))) as T1.
    pose proof (contains_total "continue" (body (answer server page st 2))) as T2.
    unfold flag.
    destruct (Py.contains "continue" (body (answer server page st 0))) as [[|]| |];
      try apply after_poll_total; try discriminate; try congruence.
    destruct (Py.contains "continue" (body (answer server page st 1))) as [[|]| |];
      try apply after_poll_total; try discriminate; try congruence.
    destruct (Py.contains "continue" (body (answer server page st 2))) as [[|]| |];
      try apply after_poll_total; try discriminate; congruence.
  - destruct fuel as [|[|[|f]]]; try lia. rewrite get_msggroupstats_three.
    destruct (flag server page st 0) as [[|]| |];
      try (exists 1%nat; split; [lia|]; first [apply after_poll_sent | reflexivity]).
    destruct (flag server page st 1) as [[|]| |];
      try (exists 2%nat; split; [lia|]; first [apply after_poll_sent | reflexivity]).
    destruct (flag server page st 2) as [[|]| |];
      exists 3%nat; (split; [lia|]); first [apply after_poll_sent | reflexivity].
  - now rewrite (get_msggroupstats_stops server page st fuel k).
  - now rewrite (get_msggroupstats_stops server page st fuel k).
  - now rewrite (get_msggroupstats_gives_up server page st fuel).
  - now rewrite (get_msggroupstats_gives_up server page st fuel).
  - intro n. unfold after_attempts, at_level. cbn [log]. rewrite filter_app.
    rewrite <- app_nil_r. f_equal.
    induction (seq 0 n) as [|k l IH]; [reflexivity | exact IH].
  - apply presence_has_stats.
  - apply presence_lacks_stats.
Qed.

Example get_msggroupstats_second_try :
  get_msggroupstats (in_turn [partial_doc; stats_doc []]) 3 "Prayer" initial
  = (Ok (stats_doc []),
     after_attempts (in_turn [partial_doc; stats_doc []]) "Prayer" initial 2).
Proof.
  rewrite (get_msggroupstats_stops _ "Prayer" initial 3 1);
    try reflexivity; try lia.
  intros [|j] Hj; [reflexivity | lia].
Qed.

Lemma get_msggroupstats_polls_witness :
  get_msggroupstats (always partial_doc) 3 "Prayer" initial
  = (Ok partial_doc,
     warned "Prayer" (after_attempts (always partial_doc) "Prayer" initial 3)).
Proof.
  pose proof (get_msggroupstats_polls (always partial_doc) 3 "Prayer" initial (le_n 3))
    as (_ & _ & _ & H & _).
  assert (Hj : forall j, (j < 3)%nat ->
                 flag (always partial_doc) "Prayer" initial j = Ok true)
    by (intros [|[|[|j]]] Hj; try reflexivity; lia).
  destruct (H Hj) as [Hs Hr].
  rewrite (surjective_pairing (get_msggroupstats _ _ _ _)), Hs, Hr. reflexivity.
Defined.

(** C2.  When the statistics fetch fails, that is when [get_msggroupstats]
    hands back the empty string, [list_page_translations] returns the empty
    list; this is the case whenever the answer the fetch ends with (the first
    one without ['continue'], or the third one) is an object without [query]
    or without [query.messagegroupstats]. *)
Theorem list_page_translations_fetch_failed
  (server : nat -> request -> response) (fuel : nat) (page : string) (st : state) :
  (3 <= fuel)%nat ->
  (forall st', get_msggroupstats server fuel page st = (Ok (JStr ""), st') ->
               list_page_translations server fuel page st = (Ok [], st')) /\
  (forall k, (k < 3)%nat ->
     (forall j, (j < k)%nat -> flag server page st j = Ok true) ->
     flag server page st k = Ok false ->
     lacks_stats (body (answer server page st k)) ->
     fst (list_page_translations server fuel page st) = Ok []) /\
  ((forall j, (j < 3)%nat -> flag server page st j = Ok true) ->
   lacks_stats (body (answer server page st 2)) ->
   fst (list_page_translations server fuel page st) = Ok []).
Proof.
  intro Hf.
  assert (E : forall st', get_msggroupstats server fuel page st = (Ok (JStr ""), st') ->
                          list_page_translations server fuel page st = (Ok [], st')).
  { intros st' H. unfold list_page_translations, bind. now rewrite H. }
  split; [exact E|]. split.
  - intros k Hk Hj Hflag Hl.
    rewrite (E (after_attempts server page st (S k))); [reflexivity|].
    rewrite (get_msggroupstats_stops server page st fuel k Hf Hk Hj Hflag).
    now rewrite presence_lacks_stats.
  - intros Hj Hl.
    rewrite (E (warned page (after_attempts server page st 3))); [reflexivity|].
    rewrite (get_msggroupstats_gives_up server page st fuel Hf Hj).
    now rewrite presence_lacks_stats.
Qed.

Lemma list_page_translations_fetch_failed_witness :
  list_page_translations (always (JDict [("error", JDict [("code", JStr "badvalue")])]))
    3 "Prayer" initial
  = (Ok [], after_attempts (always (JDict [("error", JDict [("code", JStr "badvalue")])]))
              "Prayer" initial 1).
Proof.
  exact (proj1 (list_page_translations_fetch_failed
                  (always (JDict [("error", JDict [("code", JStr "badvalue")])]))
                  3 "Prayer" initial (le_n 3)) _ eq_refl).
Defined.

(** *** Translations of a page *)

Lemma translation_line_entry
  (page : string) (e : TranslationStats) (line : json)
  (available : list json) (st : state) :
  stats_line e line ->
  translation_line page available line st =
  (Ok (available ++ (if listed e then [JStr (language e)] else []))%list,
   {| sent := sent st; log := (log st ++ line_log page e)%list |}).
Proof.
  intros (d & -> & Hl & Hn & Ht & Hf).
  unfold translation_line, listed, line_log, unfinished, incomplete. run.
  rewrite Ht. cbn.
  destruct (translated e >? 0); cbn.
  - rewrite Hn. cbn. rewrite Hf. cbn.
    destruct (total e - fuzzy e - translated e >? 4); cbn; rewrite Hl; cbn.
    + now rewrite app_nil_r.
    + destruct (translated e + fuzzy e <? total e); cbn; [reflexivity|].
      rewrite app_nil_r. now destruct st.
  - rewrite !app_nil_r. now destruct st.
Qed.

Lemma translation_lines_feed
  (page : string) (feed : list TranslationStats) (lines : list json) :
  Forall2 stats_line feed lines ->
  forall (available : list json) (st : state),
    for_each lines (translation_line page) available st =
    (Ok (available ++ map (fun e => JStr (language e)) (filter listed feed))%list,
     {| sent := sent st; log := (log st ++ flat_map (line_log page) feed)%list |}).
Proof.
  induction 1 as [|e line feed lines He _ IH]; intros available st.
  - cbn. unfold ret. rewrite !app_nil_r. now destruct st.
  - cbn [for_each]. unfold bind.
    rewrite (translation_line_entry page e line available st He), IH.
    cbn [sent log filter flat_map]. rewrite <- !app_assoc.
    now destruct (listed e).
Qed.

(** C1, as amended.  On a statistics document whose feed is a list of entry
    objects, [list_page_translations] returns the language codes of the listed
    entries in the order of the feed: an entry is listed exactly when its
    [translated] count is positive and [total - fuzzy - translated] is at most
    4.  An entry with [translated <= 0] leaves no trace, an entry left out as
    unfinished is reported at level INFO, and a listed entry with
    [translated + fuzzy < total] is reported by one warning. *)
Theorem list_page_translations_classifies
  (server : nat -> request -> response) (fuel : nat) (page : string) (st st' : state)
  (d q : list (string * json)) (lines : list json) (feed : list TranslationStats) :
  get_msggroupstats server fuel page st = (Ok (JDict d), st') ->
  Py.assoc "query" d = Some (JDict q) ->
  Py.assoc "messagegroupstats" q = Some (JList lines) ->
  Forall2 stats_line feed lines ->
  list_page_translations server fuel page st =
    (Ok (map (fun e => JStr (language e)) (filter listed feed)),
     {| sent := sent st'; log := (log st' ++ flat_map (line_log page) feed)%list |}) /\
  (forall e, listed e = true <->
             0 < translated e /\ total e - fuzzy e - translated e <= 4) /\
  (forall e, translated e <= 0 -> line_log page e = []) /\
  (forall e, at_level WARNING (line_log page e) =
             if listed e && incomplete e
             then [incomplete_translation page (language e)
                     (JInt (translated e)) (JInt (fuzzy e)) (JInt (total e))]
             else []).
Proof.
  intros Hg Hq Hs Hl. repeat split.
  - unfold list_page_translations. unfold bind at 1. rewrite Hg.
    run. rewrite Hq. cbn. rewrite Hs. cbn.
    now rewrite (translation_lines_feed page feed lines Hl).
  - unfold listed, unfinished in H. apply andb_prop in H. lia.
  - unfold listed, unfinished in H. apply andb_prop in H.
    destruct H as [_ H]. apply negb_true_iff in H. lia.
  - intros [H1 H2]. unfold listed, unfinished. apply andb_true_intro. split.
    + lia.
    + apply negb_true_iff. lia.
  - intros e He. unfold line_log.
    destruct (translated e >? 0) eqn:E; [lia | reflexivity].
  - intro e. unfold line_log, listed.
    destruct (translated e >? 0); [|reflexivity].
    destruct (unfinished e); [reflexivity|].
    now destruct (incomplete e).
Qed.

Lemma list_page_translations_classifies_witness :
  fst (list_page_translations
         (always (stats_doc [stats_entry "en" 10 10 0; stats_entry "de" 10 6 0;
                             stats_entry "fr" 10 5 0; stats_entry "kn" 10 0 0]))
         3 "Prayer" initial)
  = Ok [JStr "en"; JStr "de"].
Proof.
  refine (f_equal fst (proj1 (list_page_translations_classifies
            (always (stats_doc [stats_entry "en" 10 10 0; stats_entry "de" 10 6 0;
                                stats_entry "fr" 10 5 0; stats_entry "kn" 10 0 0]))
            3 "Prayer" initial _ _ _ _
            [ {| language := "en"; total := 10; translated := 10; fuzzy := 0 |};
              {| language := "de"; total := 10; translated := 6; fuzzy := 0 |};
              {| language := "fr"; total := 10; translated := 5; fuzzy := 0 |};
              {| language := "kn"; total := 10; translated := 0; fuzzy := 0 |} ]
            eq_refl eq_refl eq_refl _))).
  repeat constructor; eexists; repeat split.
Defined.

(** C1, as worded.  An entry with a negative [translated] count is neither an
    entry with [translated == 0] nor one with more than 4 open units, yet its
    language code is not in the result. *)
Lemma list_page_translations_negative_translated :
  listed_as_worded {| language := "de"; total := 3; translated := -1; fuzzy := 0 |} = true /\
  fst (list_page_translations (always (stats_doc [stats_entry "de" 3 (-1) 0]))
         3 "Prayer" initial)
  = Ok [].
Proof. split; reflexivity. Qed.

(** *** The CC0 notice *)

(** C4, as amended.  When the template expands to a text, [get_cc0_notice]
    returns the placeholder exactly when the text contains
    [Template:CC0Notice], and the text itself otherwise; the marker of a fuzzy
    translation only adds a warning to the log. *)
Theorem get_cc0_notice_cases
  (server : nat -> request -> response) (version languagecode : string)
  (st st' : state) (expanded : string) :
  expand_template server ("{{CC0Notice/" ++ languagecode ++ "|" ++ version ++ "}}") st
    = (Ok (JStr expanded), st') ->
  get_cc0_notice server version languagecode st =
  (Ok (JStr (if PyStr.contains "Template:CC0Notice" expanded
             then cc0_placeholder else expanded)),
   {| sent := sent st';
      log := (log st'
              ++ (if PyStr.contains "mw-translate-fuzzy" expanded then [cc0_fuzzy] else [])
              ++ (if PyStr.contains "Template:CC0Notice" expanded
                  then [cc0_untranslated] else []))%list |}).
Proof.
  intro He. unfold get_cc0_notice. unfold bind at 1. rewrite He.
  unfold bind, emit, logger, has, lift, ret. cbn [Py.contains].
  destruct (PyStr.contains "mw-translate-fuzzy" expanded);
    destruct (PyStr.contains "Template:CC0Notice" expanded);
    cbn [sent log lvl text]; rewrite ?app_nil_r; try reflexivity;
    try (rewrite <- app_assoc; reflexivity).
  now destruct st'.
Qed.

Lemma get_cc0_notice_cases_witness :
  fst (get_cc0_notice (always (expansion_doc "[[Template:CC0Notice/de]]")) "1.3" "de" initial)
  = Ok (JStr cc0_placeholder).
Proof.
  exact (f_equal fst (get_cc0_notice_cases
           (always (expansion_doc "[[Template:CC0Notice/de]]")) "1.3" "de" initial _
           "[[Template:CC0Notice/de]]" eq_refl)).
Defined.

(** C4, as worded.  An expansion that carries the fuzzy marker but not the
    template name is returned as it is, not replaced by the placeholder. *)
Lemma get_cc0_notice_fuzzy_not_replaced :
  PyStr.contains "mw-translate-fuzzy" "<span class=mw-translate-fuzzy>Version 1.3</span>" = true /\
  fst (get_cc0_notice
         (always (expansion_doc "<span class=mw-translate-fuzzy>Version 1.3</span>"))
         "1.3" "de" initial)
  = Ok (JStr "<span class=mw-translate-fuzzy>Version 1.3</span>") /\
  JStr "<span class=mw-translate-fuzzy>Version 1.3</span>" <> JStr cc0_placeholder.
Proof. repeat split. discriminate. Qed.

(** *** The PDF of a worksheet *)

(** C3.  [get_pdf_name] does not always come back with [None] when nothing is
    found: a translation without a unit whose definition ends in [.pdf], a
    response without [query], and a page source response with an empty
    [pages] object each end in an exception.  The branch for English does
    answer [None] to a response without [query], and the branch for a
    translation finds the PDF when a unit names one. *)
Theorem get_pdf_name_raises :
  fst (get_pdf_name (always (units_doc [("Prayer", JStr "Gebet");
                                        ("God, we thank you.", JNull)]))
         "Prayer" "de" initial) = Raise UnboundLocalError /\
  fst (get_pdf_name (always (JDict [("error", JDict [("code", JStr "badvalue")])]))
         "Prayer" "de" initial) = Raise KeyError /\
  fst (get_pdf_name (always (JDict [("query", JDict [("pages", JDict [])])]))
         "Prayer" "en" initial) = Raise StopIteration /\
  fst (get_pdf_name (always (JDict [("error", JDict [("code", JStr "badvalue")])]))
         "Prayer" "en" initial) = Ok JNull /\
  fst (get_pdf_name (always (units_doc [("Prayer", JStr "Gebet");
                                        ("Prayer.pdf", JStr "Gebet.pdf")]))
         "Prayer" "de" initial) = Ok (JStr "Gebet.pdf").
Proof. repeat split. Qed.

(** ** Further properties *)

(** *** Message keys *)

Section Keys.

Local Open Scope char_scope.

Lemma lower_char_twice (c : ascii) :
  PyStr.lower_char (PyStr.lower_char c) = PyStr.lower_char c.
Proof. destruct c as [[] [] [] [] [] [] [] []]; reflexivity. Qed.

Lemma lower_twice (s : string) : PyStr.lower (PyStr.lower s) = PyStr.lower s.
Proof.
  induction s as [|c s IH]; cbn; [reflexivity|]. now rewrite lower_char_twice, IH.
Qed.

(** The characters the transform looks for are no letters: lower-casing
    neither makes nor unmakes them. *)
Lemma lower_char_keeps_marks (c : ascii) :
  Ascii.eqb (PyStr.lower_char c) "-" = Ascii.eqb c "-" /\
  Ascii.eqb (PyStr.lower_char c) "_" = Ascii.eqb c "_" /\
  Ascii.eqb (PyStr.lower_char c) "(" = Ascii.eqb c "(" /\
  Ascii.eqb (PyStr.lower_char c) ")" = Ascii.eqb c ")" /\
  Ascii.eqb (PyStr.lower_char c) "'" = Ascii.eqb c "'" /\
  Ascii.eqb (PyStr.lower_char c) ":" = Ascii.eqb c ":".
Proof. destruct c as [[] [] [] [] [] [] [] []]; repeat split. Qed.

Lemma without_lower (m : ascii) (s : string) :
  (forall c, Ascii.eqb (PyStr.lower_char c) m = Ascii.eqb c m) ->
  PyStr.without m (PyStr.lower s) = PyStr.lower (PyStr.without m s).
Proof.
  intro Hm. induction s as [|c s IH]; cbn; [reflexivity|].
  rewrite Hm. destruct (Ascii.eqb c m); cbn; now rewrite IH.
Qed.

Lemma paren_to_hyphen_cons (c : ascii) (s : string) :
  paren_to_hyphen (String c s) =
  if Ascii.eqb c "_" then
    match s with
    | String d r => if Ascii.eqb d "(" then String "-" (paren_to_hyphen r)
                    else String c (paren_to_hyphen s)
    | EmptyString => String c EmptyString
    end
  else String c (paren_to_hyphen s).
Proof.
  destruct (Ascii.eqb_spec c "_") as [->|ne].
  - destruct s as [|d r]; [reflexivity|].
    destruct (Ascii.eqb_spec d "(") as [->|ne']; [reflexivity|].
    destruct d as [[] [] [] [] [] [] [] []]; try reflexivity. now elim ne'.
  - destruct c as [[] [] [] [] [] [] [] []]; try reflexivity. now elim ne.
Qed.

Lemma paren_to_hyphen_lower (s : string) :
  paren_to_hyphen (PyStr.lower s) = PyStr.lower (paren_to_hyphen s).
Proof.
  assert (H : forall n s, (String.length s <= n)%nat ->
              paren_to_hyphen (PyStr.lower s) = PyStr.lower (paren_to_hyphen s)).
  { clear s. induction n as [|n IH]; intros s Hn.
    - destruct s; [reflexivity | simpl in Hn; lia].
    - destruct s as [|c s]; [reflexivity|]. simpl in Hn.
      cbn [PyStr.lower]. rewrite !paren_to_hyphen_cons.
      destruct (lower_char_keeps_marks c) as (_ & Hc & _). rewrite Hc.
      destruct (Ascii.eqb c "_").
      + destruct s as [|d r]; [reflexivity|]. cbn [PyStr.lower].
        destruct (lower_char_keeps_marks d) as (_ & _ & Hd & _). rewrite Hd.
        destruct (Ascii.eqb d "(").
        * cbn [PyStr.lower]. f_equal. apply IH. simpl in Hn. lia.
        * cbn [PyStr.lower]. f_equal.
          change (String (PyStr.lower_char d) (PyStr.lower r))
            with (PyStr.lower (String d r)).
          apply IH. lia.
      + cbn [PyStr.lower]. f_equal. apply IH. lia. }
  now apply (H (String.length s)).
Qed.

Lemma without_twice (m : ascii) (s : string) :
  PyStr.without m (PyStr.without m s) = PyStr.without m s.
Proof.
  induction s as [|c s IH]; cbn; [reflexivity|].
  destruct (Ascii.eqb c m) eqn:E; [exact IH|]. cbn. now rewrite E, IH.
Qed.




End Keys.

(** X1.  The message key does not depend on the case of ASCII letters nor on
    hyphens in the title: a title and its lower-cased, hyphen-free form get
    the same key. *)
Theorem title_to_message_ignores_case_and_hyphens (title : string) :
  title_to_message (PyStr.lower (PyStr.without "-" title)) = title_to_message title.
Proof.
  rewrite !title_to_message_unfold. f_equal.
  rewrite <- (without_lower "-" title)
    by (intro c; apply (lower_char_keeps_marks c)).
  rewrite without_twice.
  rewrite (without_lower "-" title)
    by (intro c; apply (lower_char_keeps_marks c)).
  rewrite paren_to_hyphen_lower.
  rewrite !without_lower by (intro c; apply (lower_char_keeps_marks c)).
  apply lower_twice.
Qed.


(** *** Regular expressions *)

Section Patterns.

Local Open Scope char_scope.

Lemma search_found (match_at : string -> option string) (s m : string) :
  Re.search match_at s = Some m -> exists t, match_at t = Some m.
Proof.
  induction s as [|c s IH]; cbn.
  - destruct (match_at EmptyString) eqn:E; [|discriminate].
    intros [= <-]. now exists EmptyString.
  - destruct (match_at (String c s)) eqn:E.
    + intros [= <-]. now exists (String c s).
    + exact IH.
Qed.


Lemma search_next (match_at : string -> option string) (c : ascii) (s : string) :
  match_at (String c s) = None ->
  Re.search match_at (String c s) = Re.search match_at s.
Proof. intro H. cbn. now rewrite H. Qed.

Lemma span_all (p : ascii -> bool) (s : string) : all_chars p (Re.span p s) = true.
Proof.
  induction s as [|c s IH]; cbn [Re.span]; [reflexivity|].
  destruct (p c) eqn:E; [|reflexivity].
  cbn [all_chars]. now rewrite E, IH.
Qed.



Lemma app_empty_r (x : string) : (x ++ EmptyString = x)%string.
Proof. induction x as [|c x IH]; cbn; [reflexivity|now rewrite IH]. Qed.




Lemma search_pdf_end (s : string) :
  Re.search Re.pdf_end_at s = if names_pdf s then Some ".pdf"%string else None.
Proof.
  unfold names_pdf.
  induction s as [|c s IH]; [reflexivity|].
  cbn [Re.search ends_with]. rewrite IH. unfold Re.pdf_end_at, newline.
  rewrite (String.eqb_sym ".pdf" (String c s)).
  rewrite (String.eqb_sym (".pdf" ++ String (ascii_of_nat 10) EmptyString) (String c s)).
  destruct (String.eqb (String c s) ".pdf");
    destruct (String.eqb (String c s) (".pdf" ++ String (ascii_of_nat 10) EmptyString));
    cbn [orb]; try reflexivity.
  destruct (ends_with ".pdf" s);
    destruct (ends_with (".pdf" ++ String (ascii_of_nat 10) EmptyString) s);
    reflexivity.
Qed.

Lemma ends_with_suffix (suffix s : string) :
  ends_with suffix s = true <-> exists x, s = (x ++ suffix)%string.
Proof.
  induction s as [|c s IH]; cbn [ends_with].
  - rewrite orb_false_r, String.eqb_eq. split.
    + intros ->. now exists EmptyString.
    + intros ([|d x] & H); cbn in H; [congruence|discriminate].
  - rewrite orb_true_iff, String.eqb_eq, IH. split.
    + intros [->|(x & ->)]; [now exists EmptyString | now exists (String c x)].
    + intros ([|d x] & H); cbn in H; [now left|].
      injection H as -> ->. right. now exists x.
Qed.







End Patterns.

(** *** The PDF of a worksheet, continued *)






Lemma pdf_unit_line (u : string * json) (line : json) (pdf : option json) (st : state) :
  unit_line u line ->
  pdf_unit pdf line st = (Ok (if names_pdf (fst u) then Some (snd u) else pdf), st).
Proof.
  intros (d & -> & Hd & Ht). unfold pdf_unit, bind, item, lift, ret, re_search.
  cbn [Py.getitem]. rewrite Hd. rewrite search_pdf_end.
  destruct (names_pdf (fst u)); [|reflexivity]. now rewrite Ht.
Qed.

Lemma pdf_units_lines (units : list (string * json)) (lines : list json) :
  Forall2 unit_line units lines ->
  forall (pdf : option json) (st : state),
    for_each lines pdf_unit pdf st =
    (Ok (fold_left (fun found u => if names_pdf (fst u) then Some (snd u) else found)
           units pdf), st).
Proof.
  induction 1 as [|u line units lines Hu _ IH]; intros pdf st; [reflexivity|].
  cbn [for_each fold_left]. unfold bind. rewrite (pdf_unit_line u line pdf st Hu).
  apply IH.
Qed.

(** X5.  For a translation whose units come as a list of objects with a
    definition and a translation, [get_pdf_name] returns the translation of
    the last unit whose definition ends in [.pdf], or in [.pdf] and a line
    feed, and raises [UnboundLocalError] when there is no such unit. *)
Theorem get_pdf_name_last_unit
  (server : nat -> request -> response) (worksheet languagecode : string) (st : state)
  (d q : list (string * json)) (lines : list json) (units : list (string * json)) :
  String.eqb languagecode "en" = false ->
  body (server (List.length (sent st)) (messagecollection_request worksheet languagecode))
    = JDict d ->
  Py.assoc "query" d = Some (JDict q) ->
  Py.assoc "messagecollection" q = Some (JList lines) ->
  Forall2 unit_line units lines ->
  fst (get_pdf_name server worksheet languagecode st) =
    match last_pdf units with
    | Some translation => Ok translation
    | None => Raise UnboundLocalError
    end /\
  (forall s, names_pdf s = true <->
             exists x, s = x ++ ".pdf" \/ s = x ++ ".pdf" ++ newline).
Proof.
  intros He Hb Hq Hm Hu. split.
  - unfold get_pdf_name. rewrite He.
    unfold bind, requests_get, item, lift, ret. cbn [fst snd sent log].
    rewrite Hb. cbn [Py.getitem]. rewrite Hq. cbn [Py.getitem]. rewrite Hm.
    cbn [Py.iter]. rewrite (pdf_units_lines units lines Hu). unfold last_pdf.
    now destruct (fold_left _ units None).
  - intro s. unfold names_pdf. rewrite orb_true_iff, !ends_with_suffix. split.
    + intros [(x & ->)|(x & ->)]; exists x; auto.
    + intros (x & [->| ->]); [left|right]; now exists x.
Qed.

Lemma get_pdf_name_last_unit_witness :
  fst (get_pdf_name
         (always (units_doc [("Prayer.pdf", JStr "Gebet_alt.pdf"); ("Prayer", JStr "Gebet");
                             ("Prayer.pdf", JStr "Gebet.pdf"); ("Prayer.odt", JStr "Gebet.odt")]))
         "Prayer" "de" initial)
  = Ok (JStr "Gebet.pdf").
Proof.
  refine (proj1 (get_pdf_name_last_unit
            (always (units_doc [("Prayer.pdf", JStr "Gebet_alt.pdf"); ("Prayer", JStr "Gebet");
                                ("Prayer.pdf", JStr "Gebet.pdf");
                                ("Prayer.odt", JStr "Gebet.odt")]))
            "Prayer" "de" initial _ _ _
            [("Prayer.pdf", JStr "Gebet_alt.pdf"); ("Prayer", JStr "Gebet");
             ("Prayer.pdf", JStr "Gebet.pdf"); ("Prayer.odt", JStr "Gebet.odt")]
            eq_refl eq_refl eq_refl eq_refl _)).
  repeat constructor; eexists; repeat split.
Defined.

(** *** Language names *)

Section Names.

Local Open Scope char_scope.





Lemma lstrip_all (p : ascii -> bool) (s : string) :
  all_chars p s = true -> all_chars p (Py.lstrip s) = true.
Proof.
  induction s as [|c s IH]; cbn [Py.lstrip]; [auto|].
  intro H. destruct (Py.is_space c); [|exact H].
  cbn [all_chars] in H. apply andb_prop in H. now apply IH.
Qed.

Lemma rstrip_all (p : ascii -> bool) (s : string) :
  all_chars p s = true -> all_chars p (Py.rstrip s) = true.
Proof.
  induction s as [|c s IH]; cbn [Py.rstrip]; [auto|].
  intro H. cbn [all_chars] in H. apply andb_prop in H. destruct H as [Hc Hs].
  specialize (IH Hs).
  destruct (Py.rstrip s) as [|d r].
  - destruct (Py.is_space c); [reflexivity|]. cbn [all_chars]. now rewrite Hc.
  - cbn [all_chars] in *. now rewrite Hc, IH.
Qed.

Lemma rstrip_twice (s : string) : Py.rstrip (Py.rstrip s) = Py.rstrip s.
Proof.
  induction s as [|c s IH]; [reflexivity|]. cbn [Py.rstrip].
  destruct (Py.rstrip s) as [|d r] eqn:E.
  - destruct (Py.is_space c) eqn:S; [reflexivity|]. cbn [Py.rstrip]. now rewrite S.
  - cbn [Py.rstrip] in *. rewrite IH. reflexivity.
Qed.

Lemma lstrip_head (s : string) :
  match Py.lstrip s with
  | EmptyString => True
  | String h _ => Py.is_space h = false
  end.
Proof.
  induction s as [|c s IH]; cbn [Py.lstrip]; [exact I|].
  destruct (Py.is_space c) eqn:S; [exact IH|exact S].
Qed.

Lemma rstrip_head (h : ascii) (t : string) :
  Py.is_space h = false -> exists r, Py.rstrip (String h t) = String h r.
Proof.
  intro S. cbn [Py.rstrip]. destruct (Py.rstrip t) as [|d r].
  - rewrite S. now exists EmptyString.
  - now exists (String d r).
Qed.

Lemma strip_twice (s : string) : strip (strip s) = strip s.
Proof.
  unfold strip. pose proof (lstrip_head s) as H.
  destruct (Py.lstrip s) as [|h t]; [reflexivity|].
  destruct (rstrip_head h t H) as (r & E). rewrite E.
  cbn [Py.lstrip]. rewrite H, <- E. apply rstrip_twice.
Qed.

End Names.

Lemma get_language_name_parsed
  (server : nat -> request -> response) (language_code : string)
  (translate_to : option string) (st : state) (html : string) :
  parsed_text
    (body (server (List.length (sent st))
             (language_name_request (language_parameter language_code translate_to))))
    html ->
  get_language_name server language_code translate_to st =
  (Ok match Re.search paragraph_at html with
      | Some inner => JStr (strip inner)
      | None => JNull
      end,
   {| sent := (sent st ++ [language_name_request
                             (language_parameter language_code translate_to)])%list;
      log := log st |}).
Proof.
  intros (d & p & t & Hb & Hp & Ht & Hs).
  unfold get_language_name. fold (language_parameter language_code translate_to).
  unfold bind, requests_get, has, item, lift, ret, re_search. cbn [fst snd sent log].
  rewrite Hb. cbn [Py.contains Py.getitem]. rewrite Hp. cbn [Py.contains Py.getitem].
  rewrite Ht. cbn [Py.contains Py.getitem]. rewrite Hs.
  now destruct (Re.search paragraph_at html).
Qed.



(** X7.  Whatever the rendered text is, [get_language_name] does not raise on
    a response that carries one: it answers [None] or a string with no white
    space at either end and no [<] in it. *)
Theorem get_language_name_clean
  (server : nat -> request -> response) (language_code : string)
  (translate_to : option string) (st : state) (html : string) :
  parsed_text
    (body (server (List.length (sent st))
             (language_name_request (language_parameter language_code translate_to))))
    html ->
  fst (get_language_name server language_code translate_to st) = Ok JNull \/
  exists name,
    fst (get_language_name server language_code translate_to st) = Ok (JStr name) /\
    strip name = name /\ all_chars (is_not "<") name = true.
Proof.
  intro H. rewrite (get_language_name_parsed server language_code translate_to st _ H).
  cbn [fst]. destruct (Re.search paragraph_at html) as [inner|] eqn:E; [|now left].
  right. exists (strip inner). split; [reflexivity|]. split; [apply strip_twice|].
  apply search_found in E. destruct E as (t & E). unfold paragraph_at in E.
  destruct (String.prefix "<p>" t); [|discriminate].
  destruct (String.prefix "</p>" _); [|discriminate].
  injection E as <-. unfold strip. apply rstrip_all, lstrip_all, span_all.
Qed.

Lemma get_language_name_clean_witness :
  fst (get_language_name (always (parse_doc "<p>  Deutsch </p>")) "de" None initial)
    = Ok JNull \/
  exists name,
    fst (get_language_name (always (parse_doc "<p>  Deutsch </p>")) "de" None initial)
      = Ok (JStr name) /\
    strip name = name /\ all_chars (is_not "<") name = true.
Proof.
  apply (get_language_name_clean (always (parse_doc "<p>  Deutsch </p>")) "de" None
           initial "<p>  Deutsch </p>").
  do 3 eexists. repeat split.
Defined.

(** X8.  On an object without [parse], without [parse.text] or without
    [parse.text['*']], and on a rendered text without a paragraph,
    [get_language_name] answers [None]. *)
Theorem get_language_name_not_found
  (server : nat -> request -> response) (language_code : string)
  (translate_to : option string) (st : state) :
  let doc := body (server (List.length (sent st))
                     (language_name_request (language_parameter language_code translate_to))) in
  no_parsed_text doc \/
  (exists html, parsed_text doc html /\ PyStr.contains "<p>" html = false) ->
  fst (get_language_name server language_code translate_to st) = Ok JNull.
Proof.
  intros doc [(d & Hb & H)|(html & H & Hp)]; subst doc.
  - unfold get_language_name. fold (language_parameter language_code translate_to).
    unfold bind, requests_get, has, item, lift, ret. cbn [fst snd sent log].
    rewrite Hb. cbn [Py.contains Py.getitem].
    destruct H as [Hp|(p & Hp & H)]; rewrite Hp; [reflexivity|].
    cbn [Py.contains Py.getitem].
    destruct H as [Ht|(t & Ht & Hs)]; rewrite Ht; [reflexivity|].
    cbn [Py.contains Py.getitem]. now rewrite Hs.
  - rewrite (get_language_name_parsed server language_code translate_to st _ H).
    cbn [fst].
    assert (N : Re.search paragraph_at html = None).
    { clear H. induction html as [|c html IH]; [reflexivity|].
      cbn [PyStr.contains] in Hp. apply orb_false_iff in Hp. destruct Hp as [Hc Hp].
      rewrite search_next; [now apply IH|]. unfold paragraph_at. now rewrite Hc. }
    now rewrite N.
Qed.

Lemma get_language_name_not_found_witness :
  fst (get_language_name (always (error_doc "The text parameter must be set"))
         "de" None initial)
  = Ok JNull.
Proof.
  apply (get_language_name_not_found (always (error_doc "The text parameter must be set"))
           "de" None initial).
  left. eexists. split; [reflexivity|]. now left.
Defined.

(** *** Translation units *)

(** X9.  An [error] object in the response decides the outcome of
    [get_translation_units] before anything else is looked at: with a string
    under [info] the result is the error message followed by that string,
    without [info] it is the "Strange error" message, also when the response
    holds a complete [query.messagecollection]. *)
Theorem get_translation_units_error_first
  (server : nat -> request -> response) (worksheet languagecode : string) (st : state)
  (d e : list (string * json)) :
  body (server (List.length (sent st)) (messagecollection_request worksheet languagecode))
    = JDict d ->
  Py.assoc "error" d = Some (JDict e) ->
  (forall info, Py.assoc "info" e = Some (JStr info) ->
     fst (get_translation_units server worksheet languagecode st)
     = Ok (JStr ("Couldn't get translation units. Error: " ++ info))) /\
  (Py.assoc "info" e = None ->
     fst (get_translation_units server worksheet languagecode st)
     = Ok (JStr "Couldn't get translation units. Strange error.")).
Proof.
  intros Hb He.
  unfold get_translation_units, bind, requests_get, emit, logger, has, item, lift, ret.
  cbn [fst snd sent log]. rewrite Hb. cbn [Py.contains Py.getitem]. rewrite He.
  cbn [Py.contains Py.getitem]. split.
  - intros info Hi. now rewrite Hi.
  - intros Hi. now rewrite Hi.
Qed.

Lemma get_translation_units_error_first_witness :
  fst (get_translation_units
         (always (JDict [("query", JDict [("messagecollection", JList [])]);
                         ("error", JDict [("code", JStr "badvalue");
                                          ("info", JStr "Unrecognized value")])]))
         "Prayer" "xx" initial)
  = Ok (JStr "Couldn't get translation units. Error: Unrecognized value").
Proof.
  exact (proj1 (get_translation_units_error_first
                  (always (JDict [("query", JDict [("messagecollection", JList [])]);
                                  ("error", JDict [("code", JStr "badvalue");
                                                   ("info", JStr "Unrecognized value")])]))
                  "Prayer" "xx" initial _ _ eq_refl eq_refl)
               "Unrecognized value" eq_refl).
Defined.

(** X10.  Without an [error] member, [get_translation_units] hands back the
    value under [query.messagecollection] unchanged, after one request and one
    log record at level INFO; it answers with the "Some serious error" message
    when [query] is missing and with the "Unexpected error" message when
    [query] has no [messagecollection]. *)
Theorem get_translation_units_outcomes
  (server : nat -> request -> response) (worksheet languagecode : string) (st : state)
  (d : list (string * json)) :
  body (server (List.length (sent st)) (messagecollection_request worksheet languagecode))
    = JDict d ->
  Py.assoc "error" d = None ->
  (forall q units,
     Py.assoc "query" d = Some (JDict q) ->
     Py.assoc "messagecollection" q = Some units ->
     get_translation_units server worksheet languagecode st =
     (Ok units,
      {| sent := (sent st ++ [messagecollection_request worksheet languagecode])%list;
         log := (log st ++
                 [retrieving_units worksheet languagecode
                    (status_code (server (List.length (sent st))
                                    (messagecollection_request worksheet languagecode)))])%list
      |})) /\
  (Py.assoc "query" d = None ->
     fst (get_translation_units server worksheet languagecode st)
     = Ok (JStr "Couldn't get translation units. Some serious error")) /\
  (forall q,
     Py.assoc "query" d = Some (JDict q) ->
     Py.assoc "messagecollection" q = None ->
     fst (get_translation_units server worksheet languagecode st)
     = Ok (JStr "Couldn't get translation units. Unexpected error.")).
Proof.
  intros Hb He.
  unfold get_translation_units, bind, requests_get, emit, logger, has, item, lift, ret.
  cbn [fst snd sent log lvl text retrieving_units]. rewrite Hb.
  cbn [Py.contains Py.getitem]. rewrite He. repeat split.
  - intros q units Hq Hu. rewrite Hq. cbn [negb Py.contains Py.getitem].
    now rewrite Hu.
  - intros Hq. now rewrite Hq.
  - intros q Hq Hu. rewrite Hq. cbn [negb Py.contains Py.getitem]. now rewrite Hu.
Qed.

Lemma get_translation_units_outcomes_witness :
  fst (get_translation_units
         (always (units_doc [("Prayer", JStr "Gebet"); ("Prayer.pdf", JStr "Gebet.pdf")]))
         "Prayer" "de" initial)
  = Ok (JList [JDict [("definition", JStr "Prayer"); ("translation", JStr "Gebet")];
               JDict [("definition", JStr "Prayer.pdf"); ("translation", JStr "Gebet.pdf")]]).
Proof.
  exact (f_equal fst
           (proj1 (get_translation_units_outcomes
                     (always (units_doc [("Prayer", JStr "Gebet");
                                         ("Prayer.pdf", JStr "Gebet.pdf")]))
                     "Prayer" "de" initial _ eq_refl eq_refl)
                  _ _ eq_refl eq_refl)).
Defined.

Lemma get_pdf_name_scans
  (server : nat -> request -> response) (worksheet languagecode : string) (st : state)
  (d q : list (string * json)) (lines : list json) (units : list (string * json)) :
  String.eqb languagecode "en" = false ->
  body (server (List.length (sent st)) (messagecollection_request worksheet languagecode))
    = JDict d ->
  Py.assoc "query" d = Some (JDict q) ->
  Py.assoc "messagecollection" q = Some (JList lines) ->
  Forall2 unit_line units lines ->
  fst (get_pdf_name server worksheet languagecode st) =
    match last_pdf units with
    | Some translation => Ok translation
    | None => Raise UnboundLocalError
    end.
Proof.
  intros He Hb Hq Hm Hu.
  unfold get_pdf_name. rewrite He.
  unfold bind, requests_get, item, lift, ret. cbn [fst snd sent log].
  rewrite Hb. cbn [Py.getitem]. rewrite Hq. cbn [Py.getitem]. rewrite Hm.
  cbn [Py.iter]. rewrite (pdf_units_lines units lines Hu). unfold last_pdf.
  now destruct (fold_left _ units None).
Qed.

(** X11.  What [get_translation_units] returns is what [get_pdf_name] scans:
    when the former answers an object response with a list of unit objects,
    [get_pdf_name] for the same worksheet and language (other than English)
    returns the translation of the last of these units that names a PDF file,
    and raises [UnboundLocalError] when none does. *)
Theorem get_pdf_name_of_translation_units
  (server : nat -> request -> response) (worksheet languagecode : string) (st : state)
  (d : list (string * json)) (lines : list json) (units : list (string * json)) :
  String.eqb languagecode "en" = false ->
  body (server (List.length (sent st)) (messagecollection_request worksheet languagecode))
    = JDict d ->
  fst (get_translation_units server worksheet languagecode st) = Ok (JList lines) ->
  Forall2 unit_line units lines ->
  fst (get_pdf_name server worksheet languagecode st) =
    match last_pdf units with
    | Some translation => Ok translation
    | None => Raise UnboundLocalError
    end.
Proof.
  intros He Hb Hg Hu.
  assert (Hq : exists q, Py.assoc "query" d = Some (JDict q) /\
                         Py.assoc "messagecollection" q = Some (JList lines)).
  { revert Hg.
    unfold get_translation_units, bind, requests_get, emit, logger, has, item, lift, ret.
    cbn [fst snd sent log]. rewrite Hb. cbn [Py.contains Py.getitem].
    destruct (Py.assoc "error" d) as [e|].
    - destruct e as [| | |s|l|e]; cbn [Py.contains Py.getitem fst]; try discriminate.
      + destruct (PyStr.contains "info" s); cbn [fst]; discriminate.
      + destruct (existsb (Py.is_str "info") l); cbn [fst]; discriminate.
      + destruct (Py.assoc "info" e) as [[| | |i|l|o]|]; cbn [fst]; discriminate.
    - destruct (Py.assoc "query" d) as [qv|] eqn:Eq; cbn [negb fst]; [|discriminate].
      destruct qv as [| | |s|l|q]; cbn [Py.contains Py.getitem fst]; try discriminate.
      + destruct (PyStr.contains "messagecollection" s); cbn [negb fst]; discriminate.
      + destruct (existsb (Py.is_str "messagecollection") l); cbn [negb fst];
          discriminate.
      + destruct (Py.assoc "messagecollection" q) as [v|] eqn:Em; cbn [negb fst];
          [|discriminate].
        intros [= ->]. now exists q. }
  destruct Hq as (q & Hq & Hm).
  exact (get_pdf_name_scans server worksheet languagecode st d q lines units
           He Hb Hq Hm Hu).
Qed.

Lemma get_pdf_name_of_translation_units_witness :
  fst (get_pdf_name
         (always (units_doc [("Prayer", JStr "Gebet"); ("Prayer.pdf", JStr "Gebet.pdf")]))
         "Prayer" "de" initial)
  = Ok (JStr "Gebet.pdf").
Proof.
  refine (get_pdf_name_of_translation_units
            (always (units_doc [("Prayer", JStr "Gebet"); ("Prayer.pdf", JStr "Gebet.pdf")]))
            "Prayer" "de" initial _ _
            [("Prayer", JStr "Gebet"); ("Prayer.pdf", JStr "Gebet.pdf")]
            eq_refl eq_refl eq_refl _).
  repeat constructor; eexists; repeat split.
Defined.

(** *** Requests *)

Section Quiet.

Context {A B : Type}.

Lemma quiet_ret (a : A) : quiet (ret a).
Proof. now intro st. Qed.

Lemma quiet_lift (r : result A) : quiet (lift r).
Proof. now intro st. Qed.

Lemma quiet_bind (c : M A) (k : A -> M B) :
  quiet c -> (forall a, quiet (k a)) -> quiet (bind c k).
Proof.
  intros Hc Hk st. unfold bind. specialize (Hc st).
  destruct (c st) as [[a|e|] st']; cbn [snd] in *; [|exact Hc|exact Hc].
  now rewrite Hk.
Qed.

End Quiet.

Lemma quiet_for_each {A B : Type} (items : list A) (body : B -> A -> M B) (acc : B) :
  (forall b a, quiet (body b a)) -> quiet (for_each items body acc).
Proof.
  intro H. revert acc. induction items as [|x items IH]; intro acc; cbn [for_each].
  - now intro st.
  - apply quiet_bind; [apply H | exact IH].
Qed.

Lemma quiet_logger (l : level) (t : list piece) : quiet (logger l t).
Proof. now intro st. Qed.

Lemma one_request {A : Type}
  (server : nat -> request -> response) (params : request) (k : response -> M A)
  (st : state) :
  (forall r, quiet (k r)) ->
  sent (snd (bind (requests_get server params) k st)) = (sent st ++ [params])%list.
Proof.
  intro H. unfold bind, requests_get. now rewrite H.
Qed.

Ltac quietly :=
  repeat first
    [ apply quiet_ret
    | apply quiet_lift
    | apply quiet_logger
    | apply quiet_for_each; intros
    | apply quiet_bind; [|intro]
    | match goal with
      | |- quiet (if ?b then _ else _) => destruct b
      | |- quiet (match ?x with _ => _ end) => destruct x
      | |- quiet (let _ := _ in _) => cbv zeta
      end
    | progress unfold has, item, emit, re_search, pdf_unit, template_line,
        translation_line ].

(** X12.  Each of [get_file_url], [get_pdf_name], [list_page_templates],
    [expand_template], [get_cc0_notice], [get_language_name] and
    [get_translation_units] sends exactly one request, with the parameters of
    its query, whatever the response is and also when the call ends in an
    exception. *)
Theorem single_request
  (server : nat -> request -> response) (st : state) :
  (forall filename,
     sent (snd (get_file_url server filename st))
     = (sent st ++ [file_url_request filename])%list) /\
  (forall worksheet languagecode,
     sent (snd (get_pdf_name server worksheet languagecode st))
     = (sent st ++ [if String.eqb languagecode "en"
                    then page_source_request worksheet
                    else messagecollection_request worksheet languagecode])%list) /\
  (forall page,
     sent (snd (list_page_templates server page st))
     = (sent st ++ [templates_request page])%list) /\
  (forall raw_template,
     sent (snd (expand_template server raw_template st))
     = (sent st ++ [expandtemplates_request raw_template])%list) /\
  (forall version languagecode,
     sent (snd (get_cc0_notice server version languagecode st))
     = (sent st ++ [expandtemplates_request
                      ("{{CC0Notice/" ++ languagecode ++ "|" ++ version ++ "}}")])%list) /\
  (forall language_code translate_to,
     sent (snd (get_language_name server language_code translate_to st))
     = (sent st ++ [language_name_request
                      (language_parameter language_code translate_to)])%list) /\
  (forall worksheet languagecode,
     sent (snd (get_translation_units server worksheet languagecode st))
     = (sent st ++ [messagecollection_request worksheet languagecode])%list).
Proof.
  assert (Hexpand : forall raw st0,
            sent (snd (expand_template server raw st0))
            = (sent st0 ++ [expandtemplates_request raw])%list).
  { intros raw st0. unfold expand_template. apply one_request. intro r.
    unfold has, item, emit. quietly. }
  repeat split.
  - intro filename. unfold get_file_url. cbv zeta. apply one_request. intro r.
    unfold has, item, emit. quietly.
  - intros worksheet languagecode. unfold get_pdf_name.
    destruct (String.eqb languagecode "en"); apply one_request; intro r;
      unfold has, item, emit, re_search, pdf_unit; quietly.
  - intro page. unfold list_page_templates. apply one_request. intro r.
    unfold has, item, emit, template_line. quietly.
  - intro raw. apply Hexpand.
  - intros version languagecode. unfold get_cc0_notice.
    assert (Q : forall a : json, quiet
              (fuzzy <- has "mw-translate-fuzzy" a ;;
               (if fuzzy then emit cc0_fuzzy else ret tt) ;;;
               untranslated <- has "Template:CC0Notice" a ;;
               (if untranslated
                then emit cc0_untranslated ;;; ret (JStr cc0_placeholder)
                else ret a)))
      by (intro a; unfold has, emit; quietly).
    unfold bind at 1. pose proof (Hexpand ("{{CC0Notice/" ++ languagecode ++ "|" ++ version ++ "}}")%string st) as E.
    destruct (expand_template server _ st) as [[a|e|] st']; cbn [snd] in *;
      [|exact E|exact E].
    now rewrite Q.
  - intros language_code translate_to. unfold get_language_name.
    fold (language_parameter language_code translate_to).
    apply one_request. intro r. unfold has, item, re_search. quietly.
  - intros worksheet languagecode. unfold get_translation_units. cbv zeta.
    apply one_request. intro r. unfold has, item, emit. quietly.
Qed.

Lemma get_msggroupstats_requests
  (server : nat -> request -> response) (fuel : nat) (page : string) (st : state) :
  (3 <= fuel)%nat ->
  exists n, (1 <= n <= 3)%nat /\
    sent (snd (get_msggroupstats server fuel page st))
    = (sent st ++ repeat (msggroupstats_request page) n)%list.
Proof.
  intro Hf. destruct fuel as [|[|[|f]]]; try lia. rewrite get_msggroupstats_three.
  destruct (flag server page st 0) as [[|]| |];
    try (exists 1%nat; split; [lia|]; first [apply after_poll_sent | reflexivity]).
  destruct (flag server page st 1) as [[|]| |];
    try (exists 2%nat; split; [lia|]; first [apply after_poll_sent | reflexivity]).
  destruct (flag server page st 2) as [[|]| |];
    exists 3%nat; (split; [lia|]); first [apply after_poll_sent | reflexivity].
Qed.

(** X13.  With fuel for three rounds [list_page_translations] sends between
    one and three requests, all of them the statistics query of the page, and
    nothing else, whatever the answers are and also when it raises. *)
Theorem list_page_translations_requests
  (server : nat -> request -> response) (fuel : nat) (page : string) (st : state) :
  (3 <= fuel)%nat ->
  exists n, (1 <= n <= 3)%nat /\
    sent (snd (list_page_translations server fuel page st))
    = (sent st ++ repeat (msggroupstats_request page) n)%list.
Proof.
  intro Hf. destruct (get_msggroupstats_requests server fuel page st Hf) as (n & Hn & E).
  exists n. split; [exact Hn|].
  assert (Q : forall doc : json, quiet
            match doc with
            | JStr EmptyString => ret []
            | _ =>
                query <- item doc "query" ;;
                stats <- item query "messagegroupstats" ;;
                lines <- lift (Py.iter stats) ;;
                for_each lines (translation_line page) []
            end).
  { intro doc. destruct doc as [| | |[|c s]|l|d]; quietly. }
  unfold list_page_translations, bind at 1.
  destruct (get_msggroupstats server fuel page st) as [[doc|e|] st'];
    cbn [snd] in *; [|exact E|exact E].
  now rewrite Q.
Qed.

Lemma list_page_translations_requests_witness :
  exists n, (1 <= n <= 3)%nat /\
    sent (snd (list_page_translations (always partial_doc) 3 "Prayer" initial))
    = (sent initial ++ repeat (msggroupstats_request "Prayer") n)%list.
Proof.
  exact (list_page_translations_requests (always partial_doc) 3 "Prayer" initial (le_n 3)).
Defined.

(** *** Missing keys *)

(** X14.  [get_file_url] does not check for the keys it reads: on an object
    without [query], or with a [query] without [pages], it raises
    [KeyError]. *)
Theorem get_file_url_missing_key
  (server : nat -> request -> response) (filename : string) (st : state)
  (d : list (string * json)) :
  body (server (List.length (sent st)) (file_url_request filename)) = JDict d ->
  Py.assoc "query" d = None \/
  (exists q, Py.assoc "query" d = Some (JDict q) /\ Py.assoc "pages" q = None) ->
  fst (get_file_url server filename st) = Raise KeyError.
Proof.
  intros Hb H. unfold get_file_url. run. rewrite Hb. cbn.
  destruct H as [Hq|(q & Hq & Hp)]; rewrite Hq; cbn; [reflexivity|].
  now rewrite Hp.
Qed.

Lemma get_file_url_missing_key_witness :
  fst (get_file_url (always (error_doc "Invalid file name")) "Prayer.pdf" initial)
  = Raise KeyError.
Proof.
  refine (get_file_url_missing_key (always (error_doc "Invalid file name"))
            "Prayer.pdf" initial _ eq_refl _).
  now left.
Defined.

(** X15.  [list_page_templates] answers the empty list on an object without
    [query], without [query.pages], with no page or more than one page under
    [pages], and with a single page that has no [templates]. *)
Theorem list_page_templates_empty
  (server : nat -> request -> response) (page : string) (st : state) :
  no_templates (body (server (List.length (sent st)) (templates_request page))) ->
  fst (list_page_templates server page st) = Ok [].
Proof.
  intros (d & Hb & H). unfold list_page_templates. run. rewrite Hb. cbn.
  destruct H as [Hq|(q & Hq & H)]; rewrite Hq; cbn; [reflexivity|].
  destruct H as [Hp|(pages & Hp & H)]; rewrite Hp; cbn; [reflexivity|].
  rewrite length_map.
  destruct H as [Hn|(pageid & entry & -> & Ht)].
  - destruct (Z.of_nat (List.length pages) =? 1) eqn:E; [|reflexivity].
    apply Z.eqb_eq in E. lia.
  - cbn. rewrite String.eqb_refl. cbn. now rewrite Ht.
Qed.

Lemma list_page_templates_empty_witness :
  fst (list_page_templates
         (always (JDict [("query",
                          JDict [("pages",
                                  JDict [("-1", JDict [("title", JStr "No_Such_Page");
                                                       ("missing", JStr "")])])])]))
         "No_Such_Page" initial)
  = Ok [].
Proof.
  apply list_page_templates_empty.
  eexists. split; [reflexivity|]. right. eexists. split; [reflexivity|].
  right. eexists. split; [reflexivity|]. right. do 2 eexists. now split.
Defined.

(** *** Template expansion *)

Lemma expand_template_fails
  (server : nat -> request -> response) (raw_template : string) (st : state) :
  no_expansion (body (server (List.length (sent st)) (expandtemplates_request raw_template))) ->
  expand_template server raw_template st =
  (Ok (JStr ""),
   {| sent := (sent st ++ [expandtemplates_request raw_template])%list;
      log := (log st ++ [could_not_expand raw_template])%list |}).
Proof.
  intros (d & Hb & H). unfold expand_template. run. rewrite Hb. cbn.
  destruct H as [He|(e & He & Hw)]; rewrite He; cbn; [reflexivity|].
  now rewrite Hw.
Qed.

(** X16.  [expand_template] returns the value under [expandtemplates.wikitext]
    and logs nothing when the response has it; on an object without
    [expandtemplates] or without [expandtemplates.wikitext] it returns the
    empty string and logs one warning that names the template. *)
Theorem expand_template_outcomes
  (server : nat -> request -> response) (raw_template : string) (st : state) :
  let doc := body (server (List.length (sent st)) (expandtemplates_request raw_template)) in
  (forall d e wikitext,
     doc = JDict d -> Py.assoc "expandtemplates" d = Some (JDict e) ->
     Py.assoc "wikitext" e = Some wikitext ->
     expand_template server raw_template st =
     (Ok wikitext,
      {| sent := (sent st ++ [expandtemplates_request raw_template])%list;
         log := log st |})) /\
  (no_expansion doc ->
     expand_template server raw_template st =
     (Ok (JStr ""),
      {| sent := (sent st ++ [expandtemplates_request raw_template])%list;
         log := (log st ++ [could_not_expand raw_template])%list |})).
Proof.
  intro doc. subst doc. split.
  - intros d e wikitext Hb He Hw. unfold expand_template. run. rewrite Hb. cbn.
    rewrite He. cbn. now rewrite Hw.
  - apply expand_template_fails.
Qed.

(** X17.  When the expansion fails, [get_cc0_notice] returns the empty
    string, neither the notice nor the placeholder, and the only record it
    logs is the warning of [expand_template]. *)
Theorem get_cc0_notice_without_expansion
  (server : nat -> request -> response) (version languagecode : string) (st : state) :
  no_expansion
    (body (server (List.length (sent st))
             (expandtemplates_request
                ("{{CC0Notice/" ++ languagecode ++ "|" ++ version ++ "}}")))) ->
  get_cc0_notice server version languagecode st =
  (Ok (JStr ""),
   {| sent := (sent st ++ [expandtemplates_request
                             ("{{CC0Notice/" ++ languagecode ++ "|" ++ version ++ "}}")])%list;
      log := (log st ++ [could_not_expand
                           ("{{CC0Notice/" ++ languagecode ++ "|" ++ version ++ "}}")])%list
   |}).
Proof.
  intro H. unfold get_cc0_notice. unfold bind at 1.
  rewrite (expand_template_fails server _ st H). reflexivity.
Qed.

Lemma get_cc0_notice_without_expansion_witness :
  fst (get_cc0_notice (always (error_doc "The text parameter must be set"))
         "1.3" "de" initial)
  = Ok (JStr "").
Proof.
  refine (f_equal fst (get_cc0_notice_without_expansion
            (always (error_doc "The text parameter must be set")) "1.3" "de" initial _)).
  eexists. split; [reflexivity|]. now left.
Defined.

(** *** Malformed statistics *)

Lemma for_each_app {A B : Type} (xs ys : list A) (body : B -> A -> M B) (acc : B)
  (st : state) :
  for_each (xs ++ ys) body acc st =
  (acc' <- for_each xs body acc ;; for_each ys body acc') st.
Proof.
  revert acc st. induction xs as [|x xs IH]; intros acc st; [reflexivity|].
  cbn [for_each app]. unfold bind.
  destruct (body acc x st) as [[acc'|e|] st']; try reflexivity.
  rewrite IH. reflexivity.
Qed.

(** X18.  A feed entry without a [translated] member makes
    [list_page_translations] raise [KeyError], whatever comes after it; the
    codes of the well-formed entries before it are not returned. *)
Theorem list_page_translations_missing_count
  (server : nat -> request -> response) (fuel : nat) (page : string) (st st' : state)
  (d q broken : list (string * json)) (lines rest : list json)
  (feed : list TranslationStats) :
  get_msggroupstats server fuel page st = (Ok (JDict d), st') ->
  Py.assoc "query" d = Some (JDict q) ->
  Py.assoc "messagegroupstats" q = Some (JList (lines ++ JDict broken :: rest)) ->
  Forall2 stats_line feed lines ->
  Py.assoc "translated" broken = None ->
  fst (list_page_translations server fuel page st) = Raise KeyError.
Proof.
  intros Hg Hq Hs Hl Hb.
  unfold list_page_translations. unfold bind at 1. rewrite Hg.
  run. rewrite Hq. cbn. rewrite Hs. cbn.
  rewrite for_each_app. unfold bind at 1.
  rewrite (translation_lines_feed page feed lines Hl).
  cbn [for_each]. unfold bind at 1. unfold translation_line at 1. run.
  now rewrite Hb.
Qed.

Lemma list_page_translations_missing_count_witness :
  fst (list_page_translations
         (always (stats_doc [stats_entry "en" 10 10 0;
                             JDict [("code", JStr "de"); ("language", JStr "de")]]))
         3 "Prayer" initial)
  = Raise KeyError.
Proof.
  refine (list_page_translations_missing_count
            (always (stats_doc [stats_entry "en" 10 10 0;
                                JDict [("code", JStr "de"); ("language", JStr "de")]]))
            3 "Prayer" initial _ _ _ _ [stats_entry "en" 10 10 0] []
            [ {| language := "en"; total := 10; translated := 10; fuzzy := 0 |} ]
            eq_refl eq_refl eq_refl _ eq_refl).
  repeat constructor; eexists; repeat split.
Defined.
